(** * onadata.apps.main.models.meta_data: a shallow embedding

    The module attaches typed metadata records ([MetaData]) to forms.
    This development embeds the functions of [meta_data.py] as Rocq
    functions over an explicit world (database rows, log, write and read
    counters) with Python exceptions as an error result, and proves the
    properties of its upsert, codec, hash cache, media resolver and
    export-field accessors.

    The functions are read one by one, as written: the signature of
    [mapbox_layer_upload] repeats a parameter name, which the Python
    compiler refuses for the module as a whole, and each body is embedded
    with the behaviour its statements have.  Python values that the code
    passes around untyped (a value that may be [None], a bool or a string;
    an argument slot that receives a file or a record list) are tagged
    unions here. *)

From Stdlib Require Import ZArith NArith String Ascii List Bool Lia DecimalString.
From stdpp Require Import base option list strings gmap sorting.

Local Open Scope string_scope.
Local Open Scope list_scope.

(** ** Python values *)

Inductive pyval :=
  | PNone
  | PBool (b : bool)
  | PInt (n : Z)
  | PStr (s : string).

(** Truth value testing: [if v:]. *)
Definition truthy (v : pyval) : bool :=
  match v with
  | PNone => false
  | PBool b => b
  | PInt n => negb (n =? 0)%Z
  | PStr s => negb (s =? "")
  end.

(** [v == 'lit'] against a string literal: only a string can be equal. *)
Definition py_eq_str (v : pyval) (lit : string) : bool :=
  match v with
  | PStr s => s =? lit
  | _ => false
  end.

(** [v is None]. *)
Definition is_None (v : pyval) : bool :=
  match v with PNone => true | _ => false end.

(** [v is False]: identity with the [False] singleton. *)
Definition is_False (v : pyval) : bool :=
  match v with PBool false => true | _ => false end.

(** Text conversion of a value, as a character column stores it. *)
Definition force_text (v : pyval) : string :=
  match v with
  | PNone => "None"
  | PBool true => "True"
  | PBool false => "False"
  | PInt n => match n with
              | Z0 => "0"
              | Zpos p => NilZero.string_of_uint (Pos.to_uint p)
              | Zneg p => "-" +:+ NilZero.string_of_uint (Pos.to_uint p)
              end
  | PStr s => s
  end.

(** A content type as the code holds it: absent, a MIME string, or the
    whole [(type, encoding)] pair that [mimetypes.guess_type] returns. *)
Inductive mime :=
  | CTNone
  | CTStr (s : string)
  | CTGuess (g : option string * option string).

(** ** Exceptions and the world *)

Inductive exn :=
  | TypeError
  | AttributeError
  | NameError
  | IntegrityError
  | RequestException.

Inductive outcome (A : Type) :=
  | Ok (a : A)
  | Raise (e : exn).
Arguments Ok {A} a.
Arguments Raise {A} e.

(** ** str methods *)

(** [s.split(sep)] for a non-empty separator: the pieces between the
    leftmost non-overlapping occurrences of [sep].  [skip] counts the
    characters of a matched separator still to be passed over. *)
Fixpoint split_from (sep : string) (skip : nat) (s : string) : list string :=
  match s with
  | EmptyString => [""]
  | String c s' =>
      match skip with
      | S k => split_from sep k s'
      | O =>
          if String.prefix sep s
          then "" :: split_from sep (String.length sep - 1) s'
          else match split_from sep 0 s' with
               | p :: ps => String c p :: ps
               | [] => [String c ""]
               end
      end
  end.

Definition split (sep s : string) : list string := split_from sep 0 s.

(** [sep.join(pieces)]. *)
Definition join (sep : string) (pieces : list string) : string :=
  String.concat sep pieces.

(** [s.replace(old, new)] for a non-empty [old]: every leftmost
    non-overlapping occurrence is replaced. *)
Fixpoint replace_from (old new : string) (skip : nat) (s : string) : string :=
  match s with
  | EmptyString => ""
  | String c s' =>
      match skip with
      | S k => replace_from old new k s'
      | O =>
          if String.prefix old s
          then new +:+ replace_from old new (String.length old - 1) s'
          else String c (replace_from old new 0 s')
      end
  end.

Definition replace (old new s : string) : string := replace_from old new 0 s.

(** [l[-1]]. *)
Definition last_piece (l : list string) : string := List.last l "".

(** ** hashlib.md5 (RFC 1321) over a byte list *)

Module MD5.
Local Open Scope N_scope.

Definition w32 (x : N) : N := x mod 2 ^ 32.
Definition not32 (x : N) : N := N.lxor x (N.ones 32).
Definition rotl32 (x c : N) : N :=
  w32 (N.lor (N.shiftl x c) (N.shiftr x (32 - c))).

Definition K : list N :=
  [ 3614090360; 3905402710; 606105819; 3250441966;
    4118548399; 1200080426; 2821735955; 4249261313;
    1770035416; 2336552879; 4294925233; 2304563134;
    1804603682; 4254626195; 2792965006; 1236535329;
    4129170786; 3225465664; 643717713; 3921069994;
    3593408605; 38016083; 3634488961; 3889429448;
    568446438; 3275163606; 4107603335; 1163531501;
    2850285829; 4243563512; 1735328473; 2368359562;
    4294588738; 2272392833; 1839030562; 4259657740;
    2763975236; 1272893353; 4139469664; 3200236656;
    681279174; 3936430074; 3572445317; 76029189;
    3654602809; 3873151461; 530742520; 3299628645;
    4096336452; 1126891415; 2878612391; 4237533241;
    1700485571; 2399980690; 4293915773; 2240044497;
    1873313359; 4264355552; 2734768916; 1309151649;
    4149444226; 3174756917; 718787259; 3951481745 ].

Definition S : list N :=
  [ 7; 12; 17; 22; 7; 12; 17; 22; 7; 12; 17; 22; 7; 12; 17; 22;
    5; 9; 14; 20; 5; 9; 14; 20; 5; 9; 14; 20; 5; 9; 14; 20;
    4; 11; 16; 23; 4; 11; 16; 23; 4; 11; 16; 23; 4; 11; 16; 23;
    6; 10; 15; 21; 6; 10; 15; 21; 6; 10; 15; 21; 6; 10; 15; 21 ].

Definition state : Type := N * N * N * N.

Definition init : state := (1732584193, 4023233417, 2562383102, 271733878).

(** Little-endian word of four bytes. *)
Definition word_of (bs : list N) : N :=
  fold_right (fun b acc => b + 256 * acc) 0 bs.

Fixpoint words (n : nat) (bs : list N) : list N :=
  match n with
  | O => []
  | Datatypes.S n' => word_of (firstn 4 bs) :: words n' (skipn 4 bs)
  end.

Definition step (M : list N) (st : state) (i : nat) : state :=
  let '(a, b, c, d) := st in
  let '(f, g) :=
    if (i <? 16)%nat then (N.lor (N.land b c) (N.land (not32 b) d), i)
    else if (i <? 32)%nat
      then (N.lor (N.land d b) (N.land (not32 d) c), (5 * i + 1) mod 16)%nat
    else if (i <? 48)%nat
      then (N.lxor b (N.lxor c d), (3 * i + 5) mod 16)%nat
    else (N.lxor c (N.lor b (not32 d)), (7 * i) mod 16)%nat in
  let f' := w32 (f + a + nth i K 0 + nth g M 0) in
  (d, w32 (b + rotl32 f' (nth i S 0)), b, c).

Definition compress (st : state) (block : list N) : state :=
  let '(a0, b0, c0, d0) := st in
  let '(a, b, c, d) := fold_left (step (words 16 block)) (seq 0 64) st in
  (w32 (a0 + a), w32 (b0 + b), w32 (c0 + c), w32 (d0 + d)).

Fixpoint blocks (fuel : nat) (st : state) (bs : list N) : state :=
  match fuel with
  | O => st
  | Datatypes.S fuel' =>
      match bs with
      | [] => st
      | _ => blocks fuel' (compress st (firstn 64 bs)) (skipn 64 bs)
      end
  end.

Fixpoint le_bytes (n : nat) (x : N) : list N :=
  match n with
  | O => []
  | Datatypes.S n' => x mod 256 :: le_bytes n' (x / 256)
  end.

Definition pad (bs : list N) : list N :=
  let len := List.length bs in
  let zeros := ((119 - len mod 64) mod 64)%nat in
  bs ++ [128] ++ repeat 0 zeros ++ le_bytes 8 (8 * N.of_nat len).

(** [md5(data).digest()]: sixteen bytes. *)
Definition digest (data : list Byte.byte) : list N :=
  let padded := pad (map Byte.to_N data) in
  let '(a, b, c, d) := blocks (List.length padded) init padded in
  le_bytes 4 a ++ le_bytes 4 b ++ le_bytes 4 c ++ le_bytes 4 d.

Definition hex_digit (n : N) : ascii :=
  nth (N.to_nat n)
      (list_ascii_of_string "0123456789abcdef") "0"%char.

Definition hex_byte (b : N) : string :=
  String (hex_digit (b / 16)) (String (hex_digit (b mod 16)) "").

Definition hex (bs : list N) : string :=
  fold_right (fun b acc => hex_byte b +:+ acc) ""%string bs.

(** [md5(data).hexdigest()]. *)
Definition hexdigest (data : list Byte.byte) : string := hex (digest data).
End MD5.

(** ** Files and records *)

(** A file object: an upload handed to the module, or the attachment a
    record's [data_file] field holds.  [file_name] is [None] on a field that
    was never set and [Some ""] on one loaded from an empty column;
    [file_seekable] tells whether [seek] succeeds ([false]: it raises
    [IOError]). *)
Record File := {
  file_name : option string;
  file_content_type : mime;
  file_size : nat;
  file_content : list Byte.byte;
  file_seekable : bool;
}.

(** [bool(f)] is [bool(f.name)]. *)
Definition file_truthy (f : File) : bool :=
  match file_name f with
  | Some s => negb (s =? "")
  | None => false
  end.

(** A field whose name is the empty string: it counts as no file, and its
    size and content cannot be read (the accessors raise [ValueError]), so
    none are carried. *)
Definition nameless_file : File :=
  {| file_name := Some ""; file_content_type := CTNone; file_size := 0;
     file_content := []; file_seekable := false |}.

Definition unset_file : File :=
  {| file_name := None; file_content_type := CTNone; file_size := 0;
     file_content := []; file_seekable := false |}.

(** The model's fields; [pk] is the [id] column, [xform] the owning form's
    key. *)
Record MetaData := {
  pk : option Z;
  xform : Z;
  data_type : string;
  data_value : pyval;
  data_file : File;
  data_file_type : mime;
  file_hash : option string;
}.

(** [MetaData(data_type=..., xform=..., [data_value], [data_file],
    [data_file_type])] with the field defaults for what is not given. *)
Definition new_MetaData (dt : string) (x : Z) (v : pyval) (f : File)
    (ft : mime) : MetaData :=
  {| pk := None; xform := x; data_type := dt; data_value := v;
     data_file := f; data_file_type := ft; file_hash := None |}.

Definition set_pk (i : option Z) (r : MetaData) : MetaData :=
  {| pk := i; xform := xform r; data_type := data_type r;
     data_value := data_value r; data_file := data_file r;
     data_file_type := data_file_type r; file_hash := file_hash r |}.

Definition set_data_value (v : pyval) (r : MetaData) : MetaData :=
  {| pk := pk r; xform := xform r; data_type := data_type r;
     data_value := v; data_file := data_file r;
     data_file_type := data_file_type r; file_hash := file_hash r |}.

Definition set_data_file (f : File) (r : MetaData) : MetaData :=
  {| pk := pk r; xform := xform r; data_type := data_type r;
     data_value := data_value r; data_file := f;
     data_file_type := data_file_type r; file_hash := file_hash r |}.

Definition set_data_file_type (t : mime) (r : MetaData) : MetaData :=
  {| pk := pk r; xform := xform r; data_type := data_type r;
     data_value := data_value r; data_file := data_file r;
     data_file_type := t; file_hash := file_hash r |}.

Definition set_file_hash (h : option string) (r : MetaData) : MetaData :=
  {| pk := pk r; xform := xform r; data_type := data_type r;
     data_value := data_value r; data_file := data_file r;
     data_file_type := data_file_type r; file_hash := h |}.

(** What a call can receive in the [data_file] slot: nothing, a file, or,
    where a caller passes [form_metadata] in that position, a record
    list. *)
Inductive pyarg :=
  | ANone
  | AFile (f : File)
  | AList (l : list MetaData).

Definition arg_truthy (a : pyarg) : bool :=
  match a with
  | ANone => false
  | AFile f => file_truthy f
  | AList l => negb (bool_decide (l = []))
  end.

Definition arg_of_list (form_metadata : option (list MetaData)) : pyarg :=
  match form_metadata with
  | Some l => AList l
  | None => ANone
  end.

(** ** The world: rows, log, counters *)

Record world := {
  db : list MetaData;
  log : list string;
  writes : nat;
  reads : nat;
}.

Definition M (A : Type) : Type := world -> outcome A * world.

Definition ret {A} (a : A) : M A := fun w => (Ok a, w).
Definition raise {A} (e : exn) : M A := fun w => (Raise e, w).
Definition bind {A B} (m : M A) (k : A -> M B) : M B :=
  fun w =>
    match m w with
    | (Ok a, w') => k a w'
    | (Raise e, w') => (Raise e, w')
    end.

Notation "'let*' x ':=' m 'in' k" := (bind m (fun x => k))
  (at level 10, x name, m at level 100, k at level 200).

(** [logging.error(msg)]. *)
Definition logging_error (msg : string) : M unit :=
  fun w => (Ok tt, {| db := db w; log := log w ++ [msg];
                      writes := writes w; reads := reads w |}).

(** [f.read()] after a rewind: the whole content, counted as one read. *)
Definition file_read (f : File) : M (list Byte.byte) :=
  fun w => (Ok (file_content f), {| db := db w; log := log w;
                                    writes := writes w; reads := S (reads w) |}).

(** ** The table and its [unique_together] constraint *)

Definition same_triple (a b : MetaData) : bool :=
  (xform a =? xform b)%Z && (data_type a =? data_type b)
  && (force_text (data_value a) =? force_text (data_value b)).

Definition same_pk (a b : MetaData) : bool := bool_decide (pk a = pk b).

(** Another row already holds the record's (xform, data_type, data_value). *)
Definition conflicts (r row : MetaData) : bool :=
  same_triple r row && negb (same_pk r row).

Definition next_pk (rows : list MetaData) : Z :=
  1 + foldr (fun r m => Z.max (default 0%Z (pk r)) m) 0%Z rows.

(** [models.Model.save]: a NULL value or a triple that another row holds is
    refused by the table ([unique_together], line 139); otherwise a record
    without key is inserted under a fresh one and a record with a key
    replaces its row.  The value column holds text.  The file field is
    kept as the record has it: that a stored upload is renamed through
    [upload_to], and that a field without file reads back with the empty
    name, is left out. *)
Definition Model_save (r : MetaData) : M MetaData :=
  fun w =>
    if is_None (data_value r) || existsb (conflicts r) (db w)
    then (Raise IntegrityError, w)
    else
      let r' := match pk r with
                | Some _ => r
                | None => set_pk (Some (next_pk (db w))) r
                end in
      let row := set_data_value (PStr (force_text (data_value r'))) r' in
      let rows := if existsb (same_pk r') (db w)
                  then map (fun x => if same_pk r' x then row else x) (db w)
                  else db w ++ [row] in
      (Ok r', {| db := rows; log := log w; writes := S (writes w);
                 reads := reads w |}).

(** [QuerySet.order_by('-id')]: most recent first. *)
Definition newer_first (a b : MetaData) : Prop :=
  (default 0 (pk b) <= default 0 (pk a))%Z.

#[global] Instance newer_first_dec a b : Decision (newer_first a b).
Proof. unfold newer_first. apply _. Defined.

Definition order_by_id_desc (rows : list MetaData) : list MetaData :=
  merge_sort newer_first rows.

(** [-id]: no [id] is bound in the function or in the module, so the name
    is the builtin function, on which unary minus is not defined. *)
Definition minus_id : M (list MetaData -> list MetaData) := raise TypeError.

(** ** The module's functions *)

Definition CHUNK_SIZE : nat := 1024.

(** [r.iter_content(chunk_size)]: the body in pieces of [chunk_size]
    bytes, the last one shorter. *)
Fixpoint iter_content (fuel chunk_size : nat) (body : list Byte.byte)
    : list (list Byte.byte) :=
  match fuel with
  | O => []
  | S fuel' =>
      match body with
      | [] => []
      | _ => take chunk_size body
             :: iter_content fuel' chunk_size (drop chunk_size body)
      end
  end.

(** [str(m)] of a model instance whose class defines no [__str__]: the
    class default. *)
Definition str_MetaData (m : MetaData) : string := "MetaData object".

Section MetaDataModule.

(** Collaborators outside the module: Django's [URLValidator],
    [mimetypes.guess_type], [requests.get] ([None]: the transport
    failed), the storage backend's [exists], the configured media types
    and [MapboxLayerForm.SERIALIZATION_ORDER]. *)
Variable urlvalidate : string -> bool.
Variable guess_type : string -> option string * option string.
Variable requests_get : string -> option (list Byte.byte).
Variable storage_exists : string -> bool.
Variable SUPPORTED_MEDIA_UPLOAD_TYPES : list string.
Variable SERIALIZATION_ORDER : list string.

Definition is_valid_url (uri : pyval) : bool :=
  urlvalidate (force_text uri).

(** [MetaData._set_hash] (lines 152-170). *)
Definition _set_hash (self : MetaData) : M (option string * MetaData) :=
  let f := data_file self in
  if negb (file_truthy f) then ret (None, self)
  else
    let file_exists := storage_exists (default "" (file_name f)) in
    if (file_exists && negb (bool_decide (file_name f = Some "")))
       || (negb file_exists && file_truthy f)
    then
      if file_seekable f
      then
        let* bytes := file_read f in
        let h := "md5:" +:+ MD5.hexdigest bytes in
        ret (Some h, set_file_hash (Some h) self)
      else ret (Some "", self)
    else ret (Some "", self).

(** [MetaData.hash] (lines 145-150). *)
Definition hash (self : MetaData) : M (option string * MetaData) :=
  match file_hash self with
  | Some h => if negb (h =? "") then ret (Some h, self) else _set_hash self
  | None => _set_hash self
  end.

(** [MetaData.save] (lines 141-143). *)
Definition save (self : MetaData) : M MetaData :=
  let* hashed := _set_hash self in
  Model_save (snd hashed).

(** [metadata_for_form] (lines 78-81).  The source returns a QuerySet,
    which reads the table when it is first used; this is what it yields
    when it is used in the world [w], before any later write. *)
Definition metadata_for_form (x : Z) : M (list MetaData) :=
  fun w => (Ok (order_by_id_desc
                  (filter (fun m => xform m = x) (db w))), w).

(** [type_for_form] (lines 68-75). *)
Definition type_for_form (x : Z) (dt : string)
    (form_metadata : option (list MetaData)) : M (list MetaData) :=
  match form_metadata with
  | Some (m :: l) => ret (filter (fun m => data_type m = dt) (m :: l))
  | _ =>
      let* order := minus_id in
      fun w => (Ok (order (filter (fun m => xform m = x /\ data_type m = dt)
                                  (db w))), w)
  end.

(** [f.name] as a value. *)
Definition name_value (f : File) : pyval :=
  match file_name f with Some n => PStr n | None => PNone end.

(** Lines 48-53 of [unique_type_for_form]: a new record when nothing
    matches, else the first match; with the initial [modified] flag. *)
Definition choose_target (x : Z) (dt : string) (all_matches : list MetaData)
    : MetaData * bool :=
  match all_matches with
  | [] => (new_MetaData dt x (PStr "") unset_file CTNone, true)
  | first :: _ => (first, false)
  end.

(** [v is None or v == '']. *)
Definition value_empty (v : pyval) : bool :=
  is_None v || py_eq_str v "".

(** Lines 54-62 of [unique_type_for_form]: the value and file
    assignments on the located or new record. *)
Definition assign_value (data_value0 : pyval) (st : MetaData * bool)
    : MetaData * bool :=
  if truthy data_value0 then (set_data_value data_value0 (fst st), true)
  else st.

Definition assign_file (data_file0 : pyarg) (st : MetaData * bool)
    : M (MetaData * bool) :=
  if arg_truthy data_file0 then
    match data_file0 with
    | AFile f =>
        let result := fst st in
        let result :=
          if value_empty (data_value result)
          then set_data_value (name_value f) result
          else result in
        let result := set_data_file f result in
        let result := set_data_file_type (file_content_type f) result in
        ret (result, true)
    | _ => raise AttributeError
    end
  else ret st.

(** [unique_type_for_form] (lines 45-65). *)
Definition unique_type_for_form (x : Z) (dt : string) (data_value0 : pyval)
    (data_file0 : pyarg) (form_metadata : option (list MetaData))
    : M MetaData :=
  let* all_matches := type_for_form x dt form_metadata in
  let st := choose_target x dt all_matches in
  let st := assign_value data_value0 st in
  let* st := assign_file data_file0 st in
  if snd st then save (fst st) else ret (fst st).

(** [create_media] (lines 84-104).  The upload built at lines 98-100 is
    assigned to the field under [filename]; when that name is empty the
    field has no file. *)
Definition create_media (media : MetaData) : M (option MetaData) :=
  if is_valid_url (data_value media) then
    match data_value media with
    | PStr uri =>
        let filename := last_piece (split "/" uri) in
        let content_type := guess_type filename in
        match requests_get uri with
        | None => raise RequestException
        | Some body =>
            let written :=
              concat (filter (fun chunk => chunk <> [])
                             (iter_content (length body) CHUNK_SIZE body)) in
            let size := length written in
            let media := set_data_value (PStr filename) media in
            let media :=
              set_data_file
                (if filename =? "" then nameless_file
                 else {| file_name := Some filename;
                         file_content_type := CTGuess content_type;
                         file_size := size;
                         file_content := written;
                         file_seekable := true |}) media in
            ret (Some media)
        end
    | _ => raise AttributeError
    end
  else ret None.

(** [media_resources] (lines 107-126). *)
Fixpoint media_resources (media_list : list MetaData) (download : bool)
    : M (list MetaData) :=
  match media_list with
  | [] => ret []
  | media :: rest =>
      if bool_decide (file_name (data_file media) = Some "") && download
      then
        let* media := create_media media in
        let* data := media_resources rest download in
        ret (match media with
             | Some m => m :: data
             | None => data
             end)
      else
        let* data := media_resources rest download in
        ret (media :: data)
  end.

(** [MetaData.public_link] (lines 172-183).  The call gives
    [form_metadata] as the fourth positional argument, which is
    [data_file]. *)
Definition public_link (x : Z) (data_value0 : pyval)
    (form_metadata : option (list MetaData)) : M bool :=
  let data_type0 := "public_link" in
  let data_value0 :=
    if is_False data_value0 then PStr "False" else data_value0 in
  let* metadata :=
    unique_type_for_form x data_type0 data_value0
                         (arg_of_list form_metadata) None in
  if py_eq_str (data_value metadata) "True" then ret true else ret false.

(** [MetaData.form_license] and [MetaData.data_license] (lines 185-193),
    with the same positional call. *)
Definition form_license (x : Z) (data_value0 : pyval)
    (form_metadata : option (list MetaData)) : M MetaData :=
  unique_type_for_form x "form_license" data_value0
                       (arg_of_list form_metadata) None.

Definition data_license (x : Z) (data_value0 : pyval)
    (form_metadata : option (list MetaData)) : M MetaData :=
  unique_type_for_form x "data_license" data_value0
                       (arg_of_list form_metadata) None.

(** [MetaData.source] (lines 195-199). *)
Definition source (x : Z) (data_value0 : pyval) (data_file0 : pyarg)
    (form_metadata : option (list MetaData)) : M MetaData :=
  unique_type_for_form x "source" data_value0 data_file0 form_metadata.

(** [MetaData.supporting_docs] (lines 201-210). *)
Definition supporting_docs (x : Z) (data_file0 : option File)
    (form_metadata : option (list MetaData)) : M (list MetaData) :=
  let data_type0 := "supporting_doc" in
  let* _ :=
    match data_file0 with
    | Some f =>
        if file_truthy f then
          let* doc := save (new_MetaData data_type0 x (name_value f) f
                                         (file_content_type f)) in
          ret tt
        else ret tt
    | None => ret tt
    end in
  type_for_form x data_type0 form_metadata.

(** [content_type in allowed_types]. *)
Definition allowed (t : mime) : bool :=
  match t with
  | CTStr s => bool_decide (s ∈ SUPPORTED_MEDIA_UPLOAD_TYPES)
  | _ => false
  end.

(** Lines 217-219: the declared content type when it is allowed, else
    the first component of the guess from the file's name. *)
Definition upload_content_type (f : File) : mime :=
  if allowed (file_content_type f) then file_content_type f
  else match fst (guess_type (default "" (file_name f))) with
       | Some t => CTStr t
       | None => CTNone
       end.

(** [MetaData.media_upload] (lines 212-227). *)
Definition media_upload (x : Z) (data_file0 : option File) (download : bool)
    (form_metadata : option (list MetaData)) : M (list MetaData) :=
  let data_type0 := "media" in
  let* _ :=
    match data_file0 with
    | Some f =>
        if file_truthy f then
          let content_type := upload_content_type f in
          if allowed content_type then
            let* media := save (new_MetaData data_type0 x (name_value f) f
                                             content_type) in
            ret tt
          else ret tt
        else ret tt
    | None => ret tt
    end in
  let* media_list := type_for_form x data_type0 form_metadata in
  media_resources media_list download.

(** [MetaData.media_add_uri] (lines 229-237). *)
Definition media_add_uri (x : Z) (uri : pyval) : M unit :=
  let data_type0 := "media" in
  if is_valid_url uri then
    let* media := save (new_MetaData data_type0 x uri unset_file CTNone) in
    ret tt
  else ret tt.

(** Line 250: the fields in serialization order, joined with [||]. *)
Definition encode (data : gmap string string) : string :=
  join "||" (map (fun key => default "" (data !! key)) SERIALIZATION_ORDER).

(** [{k: values[i] for i, k in enumerate(keys)}]: a later occurrence of a
    key overrides an earlier one. *)
Definition dict_of (keys values : list string) : gmap string pyval :=
  foldl (fun d kv => <[kv.1 := PStr kv.2]> d) ∅ (zip keys values).

Definition pk_value (r : MetaData) : pyval :=
  match pk r with Some i => PInt i | None => PNone end.

(** Lines 253-267: the stored value back into a dict. *)
Definition decode (mapbox_layer : MetaData) : M (option (gmap string pyval)) :=
  if truthy (data_value mapbox_layer) then
    match data_value mapbox_layer with
    | PStr s =>
        let values := split "||" s in
        if (length values <? length SERIALIZATION_ORDER)%nat then
          let* _ := logging_error
            ("Not enough fields to deserialize mapbox_layer object: "
             +:+ str_MetaData mapbox_layer) in
          ret None
        else
          let data_values := dict_of SERIALIZATION_ORDER values in
          let data_values := <["id" := pk_value mapbox_layer]> data_values in
          ret (Some data_values)
    | _ => raise AttributeError
    end
  else ret None.

(** [MetaData.mapbox_layer_upload] (lines 239-267).  The signature names
    [form_metadata] twice; the body is read with the one parameter.  The
    upsert again receives [form_metadata] in the [data_file] position. *)
Definition mapbox_layer_upload (x : Z) (data : option (gmap string string))
    (form_metadata : option (list MetaData))
    : M (option (gmap string pyval)) :=
  let data_type0 := "mapbox_layer" in
  let data_string :=
    match data with
    | Some d => if bool_decide (d = ∅) then PNone else PStr (encode d)
    | None => PNone
    end in
  let* mapbox_layer :=
    unique_type_for_form x data_type0 data_string
                         (arg_of_list form_metadata) None in
  decode mapbox_layer.

(** [MetaData.external_export] (lines 269-279): the listing branch names
    [form_metadata], which is neither a parameter nor a global. *)
Definition external_export (x : Z) (data_value0 : pyval)
    : M (MetaData + list MetaData) :=
  let data_type0 := "external_export" in
  if truthy data_value0 then
    let* result := save (new_MetaData data_type0 x data_value0 unset_file
                                      CTNone) in
    ret (inl result)
  else raise NameError.

(** The three accessors (lines 281-297): [self.data_value.split('|')]. *)
Definition export_parts (self : MetaData) : outcome (list string) :=
  match data_value self with
  | PStr s => Ok (split "|" s)
  | _ => Raise AttributeError
  end.

Definition external_export_url (self : MetaData) : outcome (option string) :=
  match export_parts self with
  | Ok parts => Ok (if (1 <? length parts)%nat then parts !! 1%nat else None)
  | Raise e => Raise e
  end.

Definition external_export_name (self : MetaData) : outcome (option string) :=
  match export_parts self with
  | Ok parts => Ok (if (1 <? length parts)%nat then parts !! 0%nat else None)
  | Raise e => Raise e
  end.

Definition external_export_template (self : MetaData)
    : outcome (option string) :=
  match export_parts self with
  | Ok parts =>
      Ok (if (1 <? length parts)%nat
          then replace "xls" "templates" <$> parts !! 1%nat
          else None)
  | Raise e => Raise e
  end.

End MetaDataModule.

(** ** Storage paths (lines 31-42) *)

(** [path.endswith('/')]. *)
Fixpoint ends_with_slash (path : string) : bool :=
  match path with
  | EmptyString => false
  | String a EmptyString => (a =? "/")%char
  | String _ rest => ends_with_slash rest
  end.

(** One round of the loop of [posixpath.join]: an absolute component
    replaces what was joined so far; otherwise it is appended, after a [/]
    unless the path is empty or already ends with one. *)
Definition join_component (path b : string) : string :=
  if String.prefix "/" b then b
  else if (path =? "") || ends_with_slash path then path +:+ b
  else path +:+ "/" +:+ b.

(** [os.path.join(a, *p)] on a POSIX host. *)
Definition os_path_join (a : string) (p : list string) : string :=
  foldl join_component a p.

(** [upload_to] (lines 31-42); [username_of] gives
    [instance.xform.user.username] for the form the record belongs to. *)
Definition upload_to (username_of : Z -> string) (instance : MetaData)
    (filename : string) : string :=
  if data_type instance =? "media"
  then os_path_join (username_of (xform instance)) ["formid-media"; filename]
  else os_path_join (username_of (xform instance)) ["docs"; filename].

(** ** Predicates of the statements *)

(** The character [c] occurs in [s]. *)
Fixpoint has_char (c : ascii) (s : string) : bool :=
  match s with
  | EmptyString => false
  | String a s' => (a =? c)%char || has_char c s'
  end.

(** [c] is one of [0-9a-f]. *)
Definition lower_hex (c : ascii) : bool :=
  has_char c "0123456789abcdef".

Fixpoint all_chars (p : ascii -> bool) (s : string) : bool :=
  match s with
  | EmptyString => true
  | String a s' => p a && all_chars p s'
  end.

(** Following the claim's words, for comparison with line 87: the final
    segment of the URI's path, the path of [scheme://authority/...] being
    what follows the authority and ends before a [?] or a [#]. *)
Fixpoint before_query (uri : string) : string :=
  match uri with
  | EmptyString => ""
  | String c rest =>
      if (c =? "?")%char || (c =? "#")%char then ""
      else String c (before_query rest)
  end.

Definition final_path_segment (uri : string) : string :=
  List.last (drop 3 (split "/" (before_query uri))) "".

(** The table invariant: every row has a key, keys are distinct, and no two
    rows share (xform, data_type, data_value). *)
Definition unique_together (rows : list MetaData) : Prop :=
  forall i j a b,
    rows !! i = Some a -> rows !! j = Some b ->
    same_triple a b = true -> i = j.

Definition keyed (rows : list MetaData) : Prop :=
  (forall a, a ∈ rows -> pk a <> None)
  /\ (forall i j a b,
        rows !! i = Some a -> rows !! j = Some b -> pk a = pk b -> i = j).

(** The tables that [save] calls can produce from the empty one. *)
Inductive persisted (storage_exists : string -> bool)
    : list MetaData -> Prop :=
  | persisted_empty : persisted storage_exists []
  | persisted_save r w o w' :
      persisted storage_exists (db w) ->
      save storage_exists r w = (o, w') ->
      persisted storage_exists (db w').

(** The line that line 259 logs. *)
Definition corrupted_message : string :=
  "Not enough fields to deserialize mapbox_layer object: MetaData object".

(** ** Sample inputs of the examples *)

Definition empty_world : world :=
  {| db := []; log := []; writes := 0; reads := 0 |}.

Definition world_of (rows : list MetaData) : world :=
  {| db := rows; log := []; writes := 0; reads := 0 |}.

Definition nothing_stored (name : string) : bool := false.

Definition export_record (v : string) : MetaData :=
  new_MetaData "external_export" 1 (PStr v) unset_file CTNone.

Definition notes_file : File :=
  {| file_name := Some "a.txt"; file_content_type := CTStr "text/plain";
     file_size := 3; file_content := [Byte.x61; Byte.x62; Byte.x63];
     file_seekable := true |}.

Definition notes_record : MetaData :=
  new_MetaData "supporting_doc" 7 (PStr "a.txt") notes_file
               (CTStr "text/plain").

Definition notes_row : MetaData :=
  {| pk := Some 1%Z; xform := 7; data_type := "supporting_doc";
     data_value := PStr "a.txt"; data_file := notes_file;
     data_file_type := CTStr "text/plain";
     file_hash := Some "md5:900150983cd24fb0d6963f7d28e17f72" |}.

Definition source_row : MetaData :=
  {| pk := Some 1%Z; xform := 1; data_type := "source";
     data_value := PStr "census"; data_file := unset_file;
     data_file_type := CTNone; file_hash := None |}.

Definition license_row : MetaData :=
  {| pk := Some 1%Z; xform := 1; data_type := "form_license";
     data_value := PStr "cc-by"; data_file := unset_file;
     data_file_type := CTNone; file_hash := None |}.

Definition blank_license : MetaData :=
  new_MetaData "form_license" 1 (PStr "") unset_file CTNone.

Definition blank_source : MetaData :=
  new_MetaData "source" 1 (PStr "") unset_file CTNone.

Definition https_only (uri : string) : bool := String.prefix "https://" uri.

Definition guess_png (name : string) : option string * option string :=
  if name =? "cat.png" then (Some "image/png", None) else (None, None).

Definition fetch_2048 (uri : string) : option (list Byte.byte) :=
  Some (repeat Byte.x00 2048).

Definition cat_link : MetaData :=
  new_MetaData "media" 1 (PStr "https://example.com/img/cat.png")
    {| file_name := Some ""; file_content_type := CTNone; file_size := 0;
       file_content := []; file_seekable := false |} CTNone.

Definition query_link : MetaData :=
  new_MetaData "media" 1 (PStr "https://example.com/a.png?x=1/2")
               nameless_file CTNone.

Definition unset_link : MetaData :=
  new_MetaData "media" 1 (PStr "not a url") unset_file CTNone.


Definition bob_username (form : Z) : string := "bob".

Definition late_license : MetaData :=
  {| pk := Some 2%Z; xform := 1; data_type := "form_license";
     data_value := PStr "cc0"; data_file := unset_file;
     data_file_type := CTNone; file_hash := None |}.

Definition fetch_fails (uri : string) : option (list Byte.byte) := None.

Definition png_only : list string := ["image/png"].

Definition octet_png : File :=
  {| file_name := Some "cat.png";
     file_content_type := CTStr "application/octet-stream";
     file_size := 0; file_content := []; file_seekable := true |}.

(** ** str lemmas *)

Lemma append_nil s : "" +:+ s = s.
Proof. reflexivity. Qed.

Lemma append_cons c s t : String c s +:+ t = String c (s +:+ t).
Proof. reflexivity. Qed.

Lemma prefix_nil s : String.prefix "" s = true.
Proof. by destruct s. Qed.

Lemma prefix_app_self sep rest : String.prefix sep (sep +:+ rest) = true.
Proof.
  induction sep as [|c sep IH]; [apply prefix_nil|].
  rewrite append_cons. cbn [String.prefix].
  destruct (ascii_dec c c); [exact IH | done].
Qed.

Lemma split_from_nonempty sep k s : split_from sep k s <> [].
Proof.
  revert k. induction s as [|c s IH]; intros k; [done|].
  cbn [split_from]. destruct k as [|k]; [|apply IH].
  destruct (String.prefix sep (String c s)); [done|].
  destruct (split_from sep 0 s); done.
Qed.

Lemma split_from_skip sep t rest :
  split_from sep (String.length t) (t +:+ rest) = split_from sep 0 rest.
Proof.
  induction t as [|c t IH]; [done|].
  rewrite append_cons. cbn [String.length split_from]. exact IH.
Qed.

Lemma prefix_other_head c t a s :
  a <> c -> String.prefix (String c t) (String a s) = false.
Proof.
  intros Hne. cbn [String.prefix]. destruct (ascii_dec c a); [congruence | done].
Qed.

Lemma has_char_cons_false c a s :
  has_char c (String a s) = false -> a <> c /\ has_char c s = false.
Proof.
  simpl. intros H. apply orb_false_iff in H as [H1 H2].
  split; [|done]. by apply Ascii.eqb_neq.
Qed.

Lemma split_free c t s :
  has_char c s = false -> split (String c t) s = [s].
Proof.
  unfold split. induction s as [|a s IH]; intros H; [done|].
  apply has_char_cons_false in H as [Hne H].
  cbn [split_from]. rewrite (prefix_other_head _ _ _ _ Hne).
  by rewrite (IH H).
Qed.

Lemma split_cons c t n rest :
  has_char c n = false ->
  split (String c t) (n +:+ String c t +:+ rest)
  = n :: split (String c t) rest.
Proof.
  unfold split. induction n as [|a n IH]; intros H.
  - rewrite append_nil, append_cons. cbn [split_from].
    rewrite <- append_cons, prefix_app_self. f_equal.
    replace (String.length (String c t) - 1) with (String.length t)
      by (simpl; lia).
    apply split_from_skip.
  - apply has_char_cons_false in H as [Hne H].
    rewrite append_cons.
    cbn [split_from]. rewrite (prefix_other_head _ _ _ _ Hne).
    by rewrite (IH H).
Qed.

Lemma join_cons2 sep x y l :
  join sep (x :: y :: l) = x +:+ sep +:+ join sep (y :: l).
Proof. done. Qed.

Lemma split_join c t vs :
  vs <> [] -> Forall (fun v => has_char c v = false) vs ->
  split (String c t) (join (String c t) vs) = vs.
Proof.
  intros Hne Hall. induction Hall as [|v vs Hv Hall IH]; [done|].
  destruct vs as [|v' vs].
  - change (join (String c t) [v]) with v. by apply split_free.
  - rewrite join_cons2, split_cons by done. f_equal. by apply IH.
Qed.

Lemma replace_from_join old new k s :
  replace_from old new k s = join new (split_from old k s).
Proof.
  revert k. induction s as [|c s IH]; intros k; [done|].
  cbn [replace_from split_from]. destruct k as [|k]; [|apply IH].
  destruct (String.prefix old (String c s)).
  - rewrite IH.
    destruct (split_from old (String.length old - 1) s) eqn:E;
      [by apply split_from_nonempty in E | done].
  - rewrite IH. destruct (split_from old 0 s) as [|p [|q ps]]; done.
Qed.

(** ** The export accessors (lines 281-297) *)

(** C9, as stated, fails: on the value [n|u|v] the url is [u], the text
    between the first and the second [|], not the text [u|v] that follows
    the first [|]. *)
Lemma external_export_url_second_pipe :
  external_export_name (export_record "n|u|v") = Ok (Some "n")
  /\ external_export_url (export_record "n|u|v") = Ok (Some "u")
  /\ external_export_url (export_record "n|u|v") <> Ok (Some "u|v").
Proof. split; [reflexivity | split; [reflexivity | discriminate]]. Qed.

(** C9, amended: on a string value without [|] the name, the url and the
    template are all absent; on a value [n|u] or [n|u|rest], with no [|] in
    [n] and [u], the name is [n], the text before the first [|], the url is
    [u], the text between the first [|] and the next one (or the end), and
    the template is [u] with every occurrence of [xls] replaced by
    [templates], that is, the pieces of [u] between the occurrences of
    [xls] joined again with [templates]. *)
Theorem external_export_fields (self : MetaData) (s : string) :
  data_value self = PStr s ->
  (has_char "|" s = false ->
     external_export_name self = Ok None
     /\ external_export_url self = Ok None
     /\ external_export_template self = Ok None)
  /\ (forall n u rest,
        has_char "|" n = false -> has_char "|" u = false ->
        s = n +:+ "|" +:+ u \/ s = n +:+ "|" +:+ u +:+ "|" +:+ rest ->
        external_export_name self = Ok (Some n)
        /\ external_export_url self = Ok (Some u)
        /\ external_export_template self
           = Ok (Some (replace "xls" "templates" u)))
  /\ (forall u,
        replace "xls" "templates" u = join "templates" (split "xls" u)).
Proof.
  intros Hv. split; [|split].
  - intros Hfree.
    unfold external_export_name, external_export_url,
      external_export_template, export_parts.
    rewrite Hv, (split_free "|"%char "" s Hfree). done.
  - intros n u rest Hn Hu Hs.
    assert (exists tl, split "|" s = n :: u :: tl) as [tl Htl].
    { destruct Hs as [-> | ->].
      - exists []. rewrite (split_cons "|"%char "" n u Hn).
        by rewrite (split_free "|"%char "" u Hu).
      - exists (split "|" rest).
        rewrite (split_cons "|"%char "" n _ Hn).
        by rewrite (split_cons "|"%char "" u rest Hu). }
    unfold external_export_name, external_export_url,
      external_export_template, export_parts.
    rewrite Hv, Htl. done.
  - intros u. apply replace_from_join.
Qed.

Lemma external_export_fields_witness :
  external_export_name (export_record "My Export|https://host/path/file.xls")
  = Ok (Some "My Export")
  /\ external_export_url (export_record "My Export|https://host/path/file.xls")
     = Ok (Some "https://host/path/file.xls")
  /\ external_export_template
       (export_record "My Export|https://host/path/file.xls")
     = Ok (Some "https://host/path/file.templates").
Proof.
  pose proof (external_export_fields
                (export_record "My Export|https://host/path/file.xls")
                "My Export|https://host/path/file.xls" eq_refl) as [_ [H _]].
  exact (H "My Export" "https://host/path/file.xls" ""
           eq_refl eq_refl (or_introl eq_refl)).
Defined.

(** ** The map-layer codec (lines 250 and 253-267) *)

Lemma dict_fold_lookup (f : string -> string) keys (acc : gmap string pyval) k :
  foldl (fun d kv => <[kv.1 := PStr kv.2]> d) acc (zip keys (map f keys)) !! k
  = if decide (k ∈ keys) then Some (PStr (f k)) else acc !! k.
Proof.
  revert acc. induction keys as [|a keys IH]; intros acc.
  - destruct (decide (k ∈ [])) as [Hin | _]; [|done].
    by apply not_elem_of_nil in Hin.
  - change (zip (a :: keys) (map f (a :: keys)))
      with ((a, f a) :: zip keys (map f keys)).
    cbn [foldl]. rewrite IH. cbn [fst snd].
    destruct (decide (k ∈ keys)) as [Hin | Hnin];
      destruct (decide (k ∈ a :: keys)) as [Hin' | Hnin']; try done.
    + exfalso. apply Hnin', elem_of_cons. by right.
    + apply elem_of_cons in Hin' as [-> | ?]; [|done].
      by rewrite lookup_insert_eq.
    + apply lookup_insert_ne. intros ->. apply Hnin', elem_of_cons. by left.
Qed.

Lemma dict_of_covering keys (m : gmap string string) :
  dom m = list_to_set keys ->
  dict_of keys (map (fun key => default "" (m !! key)) keys) = PStr <$> m.
Proof.
  intros Hdom. apply map_eq. intros k. unfold dict_of.
  rewrite dict_fold_lookup, lookup_fmap, lookup_empty.
  destruct (decide (k ∈ keys)) as [Hin | Hnin].
  - assert (k ∈ dom m) as [v Hv]%elem_of_dom
      by (rewrite Hdom; by apply elem_of_list_to_set).
    by rewrite Hv.
  - assert (k ∉ dom m) as Hk
      by (rewrite Hdom; by rewrite elem_of_list_to_set).
    apply not_elem_of_dom in Hk. by rewrite Hk.
Qed.

Lemma truthy_PStr s : s <> "" -> truthy (PStr s) = true.
Proof.
  intros Hne. simpl. apply negb_true_iff. by apply String.eqb_neq.
Qed.

(** Lines 250 and 253-267 on a record however obtained: for a map whose
    keys are exactly the canonical keys, whose values for those keys contain
    no [|] and whose encoding is not the empty string, decoding the record
    that stores the encoding gives the map's entries, plus the record's key
    under [id]. *)
Lemma decode_encode keys (m : gmap string string) (r : MetaData) w :
  dom m = list_to_set keys ->
  forallb (fun k => negb (has_char "|" (default "" (m !! k)))) keys = true ->
  encode keys m <> "" ->
  data_value r = PStr (encode keys m) ->
  decode keys r w = (Ok (Some (<["id" := pk_value r]> (PStr <$> m))), w)
  /\ (forall k k' ks,
        encode (k :: k' :: ks) m
        = default "" (m !! k) +:+ "||" +:+ encode (k' :: ks) m)
  /\ (forall k, encode [k] m = default "" (m !! k)).
Proof.
  intros Hdom Hfree Hne Hv. split; [|split; done].
  unfold decode. rewrite Hv, (truthy_PStr _ Hne).
  unfold encode in *.
  set (vs := map (fun key => default "" (m !! key)) keys) in *.
  assert (vs <> []) as Hvs by (intros E; rewrite E in Hne; by apply Hne).
  rewrite (split_join "|"%char "|" vs Hvs).
  - replace (length vs <? length keys)%nat with false
      by (symmetry; apply Nat.ltb_ge; unfold vs; by rewrite length_map).
    unfold ret, vs. by rewrite (dict_of_covering keys m Hdom).
  - unfold vs. apply Forall_map, Forall_forall. intros k Hk.
    rewrite forallb_forall in Hfree.
    apply negb_true_iff, Hfree. by apply list_elem_of_In.
Qed.

(** Lines 253-267 on a record however obtained: a non-empty stored string
    with fewer [||]-separated pieces than canonical keys is logged and gives
    no value, and no stored string makes these lines raise. *)
Lemma decode_too_few_fields keys (r : MetaData) (s : string) w :
  data_value r = PStr s ->
  (s <> "" -> length (split "||" s) < length keys ->
   decode keys r w
   = (Ok None, {| db := db w; log := log w ++ [corrupted_message];
                  writes := writes w; reads := reads w |}))
  /\ (exists o w', decode keys r w = (Ok o, w')).
Proof.
  intros Hv. unfold decode. rewrite Hv. split.
  - intros Hne Hlt. rewrite (truthy_PStr _ Hne).
    apply Nat.ltb_lt in Hlt. by rewrite Hlt.
  - destruct (truthy (PStr s)); [|by eexists _, _].
    destruct (length (split "||" s) <? length keys)%nat; by eexists _, _.
Qed.

(** C4 (code defect): [mapbox_layer_upload] never gets to encode and decode
    a map.  Line 251 hands [form_metadata] to the upsert in the [data_file]
    position, so the lookup takes its query branch with [order_by(-id)] and
    the call raises [TypeError]: for every map, list and table the write
    raises with the world unchanged, the read that follows raises too, and
    no call returns a dict. *)
Theorem mapbox_layer_round_trip_raises storage_exists keys x
    (m : gmap string string) form_metadata w :
  mapbox_layer_upload storage_exists keys x (Some m) form_metadata w
  = (Raise TypeError, w)
  /\ bind (mapbox_layer_upload storage_exists keys x (Some m) form_metadata)
          (fun _ => mapbox_layer_upload storage_exists keys x None
                                        form_metadata) w
     = (Raise TypeError, w)
  /\ (forall data d,
        fst (mapbox_layer_upload storage_exists keys x data form_metadata w)
        <> Ok (Some d)).
Proof. done. Qed.

(** C5 (code defect): reading the map layer raises whatever is stored.  For
    every table, so also for one whose map-layer row holds a value with too
    few fields, [mapbox_layer_upload] without data raises [TypeError] at
    line 251, before the check of lines 253-262; nothing is logged and the
    caller gets an exception instead of "no value". *)
Theorem mapbox_layer_read_raises storage_exists keys x form_metadata w :
  mapbox_layer_upload storage_exists keys x None form_metadata w
  = (Raise TypeError, w)
  /\ log (snd (mapbox_layer_upload storage_exists keys x None form_metadata
                                   w)) = log w
  /\ fst (mapbox_layer_upload storage_exists keys x None form_metadata w)
     <> Ok None.
Proof. done. Qed.

(** ** The hash cache (lines 145-170) *)

Lemma hex_digit_lower n : lower_hex (MD5.hex_digit n) = true.
Proof.
  unfold MD5.hex_digit. generalize (N.to_nat n). intros k.
  do 16 (destruct k as [|k]; [reflexivity|]).
  destruct k; reflexivity.
Qed.

Lemma all_chars_app p s t :
  all_chars p (s +:+ t) = all_chars p s && all_chars p t.
Proof.
  induction s as [|c s IH]; [done|].
  rewrite append_cons. cbn [all_chars]. by rewrite IH, andb_assoc.
Qed.

Lemma length_app_string s t :
  String.length (s +:+ t) = String.length s + String.length t.
Proof.
  induction s as [|c s IH]; [done|].
  rewrite append_cons. cbn [String.length]. by rewrite IH.
Qed.

Lemma hex_lower bs : all_chars lower_hex (MD5.hex bs) = true.
Proof.
  induction bs as [|b bs IH]; [done|].
  cbn [MD5.hex fold_right]. rewrite all_chars_app.
  fold (MD5.hex bs). rewrite IH. unfold MD5.hex_byte. cbn [all_chars].
  by rewrite !hex_digit_lower.
Qed.

Lemma hex_length bs : String.length (MD5.hex bs) = 2 * length bs.
Proof.
  induction bs as [|b bs IH]; [done|].
  cbn [MD5.hex fold_right]. fold (MD5.hex bs).
  rewrite length_app_string, IH. simpl. lia.
Qed.

Lemma le_bytes_length n x : length (MD5.le_bytes n x) = n.
Proof. revert x. induction n as [|n IH]; intros x; simpl; [done|]. by rewrite IH. Qed.

Lemma digest_length data : length (MD5.digest data) = 16.
Proof.
  unfold MD5.digest.
  destruct (MD5.blocks _ _ _) as [[[a b] c] d].
  by rewrite !length_app, !le_bytes_length.
Qed.

Lemma hexdigest_form data :
  String.length (MD5.hexdigest data) = 32
  /\ all_chars lower_hex (MD5.hexdigest data) = true.
Proof.
  unfold MD5.hexdigest. split; [|apply hex_lower].
  by rewrite hex_length, digest_length.
Qed.

Lemma set_hash_attached storage_exists (self : MetaData) w :
  file_truthy (data_file self) = true ->
  _set_hash storage_exists self w
  = if file_seekable (data_file self)
    then
      let h := "md5:" +:+ MD5.hexdigest (file_content (data_file self)) in
      (Ok (Some h, set_file_hash (Some h) self),
       {| db := db w; log := log w; writes := writes w;
          reads := S (reads w) |})
    else (Ok (Some "", self), w).
Proof.
  intros Hf. unfold _set_hash. rewrite Hf. cbn [negb].
  assert (bool_decide (file_name (data_file self) = Some "") = false) as ->.
  { apply bool_decide_eq_false. intros E. unfold file_truthy in Hf.
    by rewrite E in Hf. }
  destruct (storage_exists _); cbn [negb andb orb];
    by destruct (file_seekable (data_file self)).
Qed.

Lemma hash_cached storage_exists (self : MetaData) h w :
  file_hash self = Some h -> h <> "" ->
  hash storage_exists self w = (Ok (Some h, self), w).
Proof.
  intros Hh Hne. unfold hash. rewrite Hh.
  apply String.eqb_neq in Hne. by rewrite Hne.
Qed.

Lemma hash_miss storage_exists (self : MetaData) w :
  file_hash self = None \/ file_hash self = Some "" ->
  hash storage_exists self w = _set_hash storage_exists self w.
Proof. unfold hash. by intros [-> | ->]. Qed.

(** C7: for a record with an attached file, [hash] returns without raising;
    a second call on the record as the first call left it returns the same
    value and leaves record and world as they were, so the stream is not
    read again; whenever the value returned is not the empty sentinel it is
    the cached [file_hash]; a seekable stream never yields the sentinel; and
    a digest computed on an empty cache is [md5:] followed by the 32
    lowercase hexadecimal characters of the MD5 of the content, at the cost
    of one read. *)
Theorem hash_twice storage_exists (self : MetaData) w :
  file_truthy (data_file self) = true ->
  exists d self1 w1,
    hash storage_exists self w = (Ok (d, self1), w1)
    /\ hash storage_exists self1 w1 = (Ok (d, self1), w1)
    /\ reads (snd (hash storage_exists self1 w1)) = reads w1
    /\ data_file self1 = data_file self
    /\ (d <> Some "" -> file_hash self1 = d)
    /\ (file_seekable (data_file self) = true -> d <> Some "" /\ d <> None)
    /\ (file_seekable (data_file self) = true ->
        file_hash self = None \/ file_hash self = Some "" ->
        let hex := MD5.hexdigest (file_content (data_file self)) in
        d = Some ("md5:" +:+ hex)
        /\ reads w1 = S (reads w)
        /\ String.length hex = 32
        /\ all_chars lower_hex hex = true).
Proof.
  intros Hf.
  destruct (decide (file_hash self = None \/ file_hash self = Some ""))
    as [Hmiss | Hhit].
  - destruct (file_seekable (data_file self)) eqn:Hseek.
    + set (h := "md5:" +:+ MD5.hexdigest (file_content (data_file self))).
      set (w1 := {| db := db w; log := log w; writes := writes w;
                    reads := S (reads w) |}).
      exists (Some h), (set_file_hash (Some h) self), w1.
      assert (hash storage_exists (set_file_hash (Some h) self) w1
              = (Ok (Some h, set_file_hash (Some h) self), w1)) as E
        by (by apply hash_cached).
      rewrite (hash_miss _ _ _ Hmiss), (set_hash_attached _ _ _ Hf), Hseek, E.
      split; [done|]. split; [done|]. split; [done|]. split; [done|].
      split; [done|]. split; [done|].
      intros _ _. split; [done|]. split; [done|]. apply hexdigest_form.
    + exists (Some ""), self, w.
      rewrite (hash_miss _ _ _ Hmiss), (set_hash_attached _ _ _ Hf), Hseek.
      split; [done|]. split; [done|]. split; [done|]. split; [done|].
      split; [done|]. split; done.
  - destruct (file_hash self) as [h|] eqn:Hh; [|by destruct Hhit; left].
    assert (h <> "") as Hne by (intros ->; apply Hhit; by right).
    exists (Some h), self, w.
    rewrite (hash_cached _ _ _ _ Hh Hne).
    split; [done|]. split; [done|]. split; [done|]. split; [done|].
    split; [done|]. split.
    + intros _. split; [congruence | done].
    + intros _ [E | E]; [done|]. congruence.
Qed.

Lemma hash_twice_witness :
  exists self1 w1,
    hash nothing_stored notes_record empty_world
    = (Ok (Some "md5:900150983cd24fb0d6963f7d28e17f72", self1), w1)
    /\ hash nothing_stored self1 w1
       = (Ok (Some "md5:900150983cd24fb0d6963f7d28e17f72", self1), w1)
    /\ reads w1 = 1.
Proof.
  destruct (hash_twice nothing_stored notes_record empty_world eq_refl)
    as (d & self1 & w1 & H1 & H2 & _ & _ & _ & _ & H7).
  destruct (H7 eq_refl (or_introl eq_refl)) as (Hd & Hr & _).
  exists self1, w1. rewrite Hd in H1, H2.
  split; [exact H1 | split; [exact H2 | exact Hr]].
Defined.

(** ** The media resolver (lines 84-126) *)

Lemma bind_ret_r {A} (m : M A) w : bind m (fun a => ret a) w = m w.
Proof. unfold bind, ret. by destruct (m w) as [[a|e] w']. Qed.

Lemma iter_content_written fuel n (body : list Byte.byte) :
  0 < n -> length body <= fuel ->
  concat (filter (fun chunk => chunk <> []) (iter_content fuel n body)) = body.
Proof.
  intros Hn. revert body. induction fuel as [|fuel IH]; intros body Hlen.
  - destruct body; [done | simpl in Hlen; lia].
  - destruct body as [|b body]; [done|].
    cbn [iter_content].
    rewrite filter_cons_True by (destruct n; [lia | done]).
    cbn [concat]. rewrite IH; [apply take_drop|].
    rewrite length_drop. simpl in *. lia.
Qed.

Lemma last_piece_join c t segs :
  segs <> [] -> Forall (fun v => has_char c v = false) segs ->
  last_piece (split (String c t) (join (String c t) segs)) = List.last segs "".
Proof. intros Hne Hall. unfold last_piece. by rewrite split_join. Qed.

(** C6, as stated, fails in two places.  The value is rewritten to the
    text after the last [/] of the URI, which is not the final segment of
    its path when a query holds a [/]: for [.../a.png?x=1/2] the record gets
    [2], not [a.png].  And a record whose attachment was never set (name
    [None], not the empty string) is not resolved at all: with a value that
    is no URI it is listed, not excluded. *)
Lemma create_media_query_segment :
  final_path_segment "https://example.com/a.png?x=1/2" = "a.png"
  /\ file_truthy (data_file query_link) = false
  /\ (exists resolved,
        create_media https_only guess_png fetch_2048 query_link empty_world
        = (Ok (Some resolved), empty_world)
        /\ data_value resolved = PStr "2")
  /\ file_truthy (data_file unset_link) = false
  /\ is_valid_url https_only (data_value unset_link) = false
  /\ media_resources https_only guess_png fetch_2048 [unset_link] true
                     empty_world
     = (Ok [unset_link], empty_world).
Proof.
  split; [reflexivity|]. split; [reflexivity|].
  split; [eexists; split; reflexivity|].
  split; [reflexivity|]. split; reflexivity.
Qed.

Lemma before_query_plain s :
  has_char "?" s = false -> has_char "#" s = false -> before_query s = s.
Proof.
  induction s as [|c s IH]; [done|].
  intros [Hq Hs]%has_char_cons_false [Hh Hs']%has_char_cons_false.
  cbn [before_query].
  apply Ascii.eqb_neq in Hq. apply Ascii.eqb_neq in Hh.
  rewrite Hq, Hh. cbn [orb]. by rewrite IH.
Qed.

Lemma last_drop {A} n (l : list A) d :
  n < length l -> List.last (drop n l) d = List.last l d.
Proof.
  revert n. induction l as [|a l IH]; intros n Hn; [simpl in Hn; lia|].
  destruct n as [|n]; [done|]. cbn [drop length] in *.
  rewrite IH by lia. destruct l; [simpl in Hn; lia | done].
Qed.

(** C6, amended: for every media record whose value is a string that the
    validator accepts and whose fetch succeeds, [create_media] rewrites the
    value to the text after the last [/] of the URI, which is the final
    segment of the URI's path when the URI has a path and neither [?] nor
    [#]; when that text is not empty it attaches the fetched bytes under it
    as the record's file, with the fetched byte count as length, and when
    it is empty the record is left without a file.  When the value is not a
    valid URI, [create_media] returns nothing.  [media_resources] with
    [download] resolves the records whose attachment name is the empty
    string, listing the rewritten record or, for an invalid value, leaving
    the record out; a record whose attachment name is anything else, also a
    name never set, is listed as it is. *)
Theorem create_media_resolves urlvalidate guess_type requests_get
    (media : MetaData) (rest : list MetaData) w :
  (forall uri body,
      data_value media = PStr uri ->
      urlvalidate uri = true ->
      requests_get uri = Some body ->
      let filename := last_piece (split "/" uri) in
      exists resolved,
        create_media urlvalidate guess_type requests_get media w
        = (Ok (Some resolved), w)
        /\ resolved = set_data_file (data_file resolved)
                                    (set_data_value (PStr filename) media)
        /\ (filename <> "" ->
            file_name (data_file resolved) = Some filename
            /\ file_content (data_file resolved) = body
            /\ file_size (data_file resolved) = length body
            /\ file_truthy (data_file resolved) = true)
        /\ (filename = "" -> file_truthy (data_file resolved) = false)
        /\ (has_char "?" uri = false -> has_char "#" uri = false ->
            3 < length (split "/" uri) ->
            filename = final_path_segment uri)
        /\ (file_name (data_file media) = Some "" ->
            media_resources urlvalidate guess_type requests_get
                            (media :: rest) true w
            = bind (media_resources urlvalidate guess_type requests_get rest
                                    true)
                   (fun data => ret (resolved :: data)) w
            /\ media_resources urlvalidate guess_type requests_get [media]
                               true w
               = (Ok [resolved], w)))
  /\ (is_valid_url urlvalidate (data_value media) = false ->
      create_media urlvalidate guess_type requests_get media w = (Ok None, w)
      /\ (file_name (data_file media) = Some "" ->
          media_resources urlvalidate guess_type requests_get
                          (media :: rest) true w
          = media_resources urlvalidate guess_type requests_get rest true w))
  /\ (file_name (data_file media) <> Some "" ->
      forall download,
        media_resources urlvalidate guess_type requests_get (media :: rest)
                        download w
        = bind (media_resources urlvalidate guess_type requests_get rest
                                download)
               (fun data => ret (media :: data)) w).
Proof.
  split; [|split].
  - intros uri body Hv Hvalid Hget filename.
    set (attached :=
           if filename =? "" then nameless_file
           else {| file_name := Some filename;
                   file_content_type := CTGuess (guess_type filename);
                   file_size := length body;
                   file_content := body;
                   file_seekable := true |}).
    set (resolved := set_data_file attached
                       (set_data_value (PStr filename) media)).
    assert (create_media urlvalidate guess_type requests_get media w
            = (Ok (Some resolved), w)) as Hcreate.
    { unfold create_media, is_valid_url. rewrite Hv. cbn [force_text].
      rewrite Hvalid, Hget.
      rewrite iter_content_written by (unfold CHUNK_SIZE; lia). done. }
    exists resolved. split; [done|]. split; [done|].
    split; [|split; [|split]].
    + intros Hne. assert ((filename =? "") = false) as E
        by (by apply String.eqb_neq).
      unfold resolved, attached. cbn [data_file set_data_file].
      rewrite E. unfold file_truthy.
      cbn [file_name file_content file_size]. by rewrite E.
    + intros He. unfold resolved, attached. cbn [data_file set_data_file].
      by rewrite He.
    + intros Hq Hh Hlen. unfold final_path_segment.
      rewrite (before_query_plain _ Hq Hh). unfold filename, last_piece.
      by rewrite last_drop.
    + intros Hname.
      assert (forall l,
        media_resources urlvalidate guess_type requests_get (media :: l)
                        true w
        = bind (media_resources urlvalidate guess_type requests_get l true)
               (fun data => ret (resolved :: data)) w) as Hlist.
      { intros l. cbn [media_resources]. rewrite Hname.
        rewrite bool_decide_eq_true_2 by done. cbn [andb].
        unfold bind at 1. by rewrite Hcreate. }
      split; [apply Hlist | by rewrite Hlist].
  - intros Hinvalid.
    assert (create_media urlvalidate guess_type requests_get media w
            = (Ok None, w)) as Hcreate
      by (unfold create_media; by rewrite Hinvalid).
    split; [done|]. intros Hname.
    cbn [media_resources]. rewrite Hname.
    rewrite bool_decide_eq_true_2 by done. cbn [andb].
    unfold bind at 1. rewrite Hcreate. apply bind_ret_r.
  - intros Hname download. cbn [media_resources].
    by rewrite bool_decide_eq_false_2 by done.
Qed.

Lemma create_media_resolves_witness :
  exists resolved,
    media_resources https_only guess_png fetch_2048 [cat_link] true empty_world
    = (Ok [resolved], empty_world)
    /\ data_value resolved = PStr "cat.png"
    /\ file_name (data_file resolved) = Some "cat.png"
    /\ file_size (data_file resolved) = 2048
    /\ final_path_segment "https://example.com/img/cat.png" = "cat.png".
Proof.
  destruct (create_media_resolves https_only guess_png fetch_2048
              cat_link [] empty_world) as [H _].
  destruct (H "https://example.com/img/cat.png" (repeat Byte.x00 2048)
              eq_refl eq_refl eq_refl)
    as (resolved & _ & Hres & Hfile & _ & Hseg & Hlist).
  destruct (Hfile ltac:(discriminate)) as (Hn & _ & Hsize & _).
  exists resolved. split; [exact (proj2 (Hlist eq_refl))|].
  split; [by rewrite Hres|]. split; [exact Hn|].
  split; [by rewrite Hsize, repeat_length|].
  symmetry. apply Hseg; [reflexivity | reflexivity | simpl; lia].
Defined.

(** ** The upsert (lines 45-75) *)

Lemma type_for_form_query_raises x dt w :
  type_for_form x dt None w = (Raise TypeError, w)
  /\ type_for_form x dt (Some []) w = (Raise TypeError, w).
Proof. done. Qed.

Lemma upsert_query_raises storage_exists x dt v f w :
  unique_type_for_form storage_exists x dt v f None w = (Raise TypeError, w).
Proof. done. Qed.

(** C1 (code defect): with no prefetched list, or an empty one, the lookup
    of [unique_type_for_form] evaluates [order_by(-id)] and raises
    [TypeError] before any record is built or saved; two sequential upserts
    with two values leave the table as it was. *)
Theorem unique_type_for_form_twice_raises storage_exists x dt
    (v1 v2 : string) w :
  unique_type_for_form storage_exists x dt (PStr v1) ANone None w
  = (Raise TypeError, w)
  /\ unique_type_for_form storage_exists x dt (PStr v2) ANone None w
     = (Raise TypeError, w)
  /\ unique_type_for_form storage_exists x dt (PStr v1) ANone (Some []) w
     = (Raise TypeError, w)
  /\ db (snd (bind (unique_type_for_form storage_exists x dt (PStr v1)
                                         ANone None)
                   (fun _ => unique_type_for_form storage_exists x dt
                                                  (PStr v2) ANone None) w))
     = db w.
Proof. done. Qed.

(** C3 (code defect): [public_link] raises [TypeError] on every call,
    writing or reading, with or without a prefetched list: the list goes to
    the [data_file] position, so the lookup always takes the query branch
    with [order_by(-id)]. *)
Theorem public_link_raises storage_exists x v form_metadata w :
  public_link storage_exists x v form_metadata w = (Raise TypeError, w).
Proof. done. Qed.

Lemma upsert_supplied storage_exists x dt v f m l w :
  unique_type_for_form storage_exists x dt v f (Some (m :: l)) w
  = bind (assign_file f
            (assign_value v
               (choose_target x dt
                  (filter (fun r => data_type r = dt) (m :: l)))))
         (fun st => if snd st then save storage_exists (fst st)
                    else ret (fst st)) w.
Proof. done. Qed.

Lemma set_hash_frame storage_exists r w :
  exists o r1 w1,
    _set_hash storage_exists r w = (Ok (o, r1), w1)
    /\ db w1 = db w /\ log w1 = log w /\ writes w1 = writes w
    /\ reads w <= reads w1
    /\ pk r1 = pk r /\ xform r1 = xform r /\ data_type r1 = data_type r
    /\ data_value r1 = data_value r /\ data_file r1 = data_file r
    /\ data_file_type r1 = data_file_type r.
Proof.
  unfold _set_hash.
  destruct (negb (file_truthy (data_file r)));
    [by eexists _, _, _; repeat split|].
  destruct (_ || _); [|by eexists _, _, _; repeat split].
  destruct (file_seekable (data_file r)); [|by eexists _, _, _; repeat split].
  eexists _, _, _. split; [reflexivity|]. repeat split; simpl; lia.
Qed.

Lemma Model_save_cases r w :
  (Model_save r w = (Raise IntegrityError, w)
   /\ is_None (data_value r) || existsb (conflicts r) (db w) = true)
  \/ (exists r' w',
        Model_save r w = (Ok r', w')
        /\ is_None (data_value r) || existsb (conflicts r) (db w) = false
        /\ r' = match pk r with
                | Some _ => r
                | None => set_pk (Some (next_pk (db w))) r
                end
        /\ writes w' = S (writes w) /\ log w' = log w /\ reads w' = reads w
        /\ db w' = let row := set_data_value
                                (PStr (force_text (data_value r'))) r' in
                   if existsb (same_pk r') (db w)
                   then map (fun x => if same_pk r' x then row else x) (db w)
                   else db w ++ [row]).
Proof.
  unfold Model_save.
  destruct (is_None (data_value r) || existsb (conflicts r) (db w));
    [by left|].
  right. eexists _, _. by repeat split.
Qed.

(** [save] either is refused by the table, leaving rows and write count as
    they were, or writes once and returns the record with its value, file
    and file type untouched. *)
Lemma save_cases storage_exists r w :
  (exists w', save storage_exists r w = (Raise IntegrityError, w')
              /\ db w' = db w /\ writes w' = writes w /\ log w' = log w
              /\ is_None (data_value r) || existsb (conflicts r) (db w) = true)
  \/ (exists r' w',
        save storage_exists r w = (Ok r', w')
        /\ writes w' = S (writes w) /\ log w' = log w
        /\ is_None (data_value r) || existsb (conflicts r) (db w) = false
        /\ xform r' = xform r /\ data_type r' = data_type r
        /\ data_value r' = data_value r /\ data_file r' = data_file r
        /\ data_file_type r' = data_file_type r
        /\ pk r' <> None).
Proof.
  unfold save, bind.
  destruct (set_hash_frame storage_exists r w)
    as (o & r1 & w1 & -> & Hdb & Hlog & Hwr & _ & Hpk & Hx & Hdt & Hv & Hf & Hft).
  cbn [snd].
  assert (conflicts r1 = conflicts r) as Hconf.
  { unfold conflicts, same_triple, same_pk. by rewrite Hpk, Hx, Hdt, Hv. }
  destruct (Model_save_cases r1 w1)
    as [[-> Hc] | (r' & w' & -> & Hc & Hr' & Hwr' & Hlog' & _ & _)].
  - left. exists w1. rewrite Hv, Hconf, Hdb in Hc. by repeat split.
  - right. exists r', w'. rewrite Hv, Hconf, Hdb in Hc.
    assert (xform r' = xform r1 /\ data_type r' = data_type r1
            /\ data_value r' = data_value r1 /\ data_file r' = data_file r1
            /\ data_file_type r' = data_file_type r1 /\ pk r' <> None)
      as (? & ? & ? & ? & ? & ?).
    { rewrite Hr'. destruct (pk r1) eqn:E; repeat split; try done.
      by rewrite E. }
    repeat split; try congruence; try lia.
Qed.

Lemma pk_below_next rows a :
  In a rows -> (default 0 (pk a) < next_pk rows)%Z.
Proof.
  unfold next_pk. induction rows as [|b rows IH]; [done|].
  intros [-> | Hin]; cbn [foldr]; [lia|].
  specialize (IH Hin). lia.
Qed.

Lemma next_pk_fresh rows r :
  existsb (same_pk (set_pk (Some (next_pk rows)) r)) rows = false.
Proof.
  apply not_true_is_false. intros H.
  apply existsb_exists in H as (a & Hin & Hsame).
  apply bool_decide_eq_true in Hsame. cbn [pk set_pk] in Hsame.
  pose proof (pk_below_next rows a Hin) as Hlt.
  rewrite <- Hsame in Hlt. simpl in Hlt. lia.
Qed.

Lemma assign_file_cases f st w :
  (arg_truthy f = false /\ assign_file f st w = (Ok st, w))
  \/ (arg_truthy f = true
      /\ ((exists r, assign_file f st w = (Ok (r, true), w))
          \/ assign_file f st w = (Raise AttributeError, w))).
Proof.
  unfold assign_file. destruct (arg_truthy f) eqn:E; [|by left].
  right. split; [done|]. destruct f; [by right | left; by eexists | by right].
Qed.



(** C2, as stated, fails: with neither value nor file and no matching
    record, the newly built record is saved (one write, one row more),
    although no field was changed. *)
Lemma upsert_saves_untouched_new_record :
  filter (fun r => data_type r = "form_license") [source_row] = []
  /\ unique_type_for_form nothing_stored 1 "form_license" PNone ANone
                          (Some [source_row]) (world_of [source_row])
     <> (Ok blank_license, world_of [source_row])
  /\ unique_type_for_form nothing_stored 1 "form_license" PNone ANone
                          (Some [source_row]) (world_of [source_row])
     = (Ok (set_pk (Some 2%Z) blank_license),
        {| db := [source_row; set_pk (Some 2%Z) blank_license]; log := [];
           writes := 1; reads := 0 |}).
Proof. split; [reflexivity|]. split; [discriminate | reflexivity]. Qed.

(** C2, amended: on a call that locates its candidates in a prefetched,
    non-empty list, at most one write is made; a write is made only when no
    record matched, a non-empty value was supplied or a file was supplied,
    and in each of these cases a call that returns has written exactly
    once; with neither value nor file, a call that finds a match returns
    that record and leaves the world as it was, and a call that finds none
    builds a new record and saves it, which, when no row already holds
    (xform, data_type, ''), returns the record under a fresh key with one
    write and the row appended. *)
Theorem upsert_writes storage_exists x dt v f m l w :
  let all_matches := filter (fun r => data_type r = dt) (m :: l) in
  let run := unique_type_for_form storage_exists x dt v f (Some (m :: l)) w in
  writes w <= writes (snd run) <= S (writes w)
  /\ (writes (snd run) = S (writes w) ->
      all_matches = [] \/ truthy v = true \/ arg_truthy f = true)
  /\ (forall r, fst run = Ok r ->
      all_matches = [] \/ truthy v = true \/ arg_truthy f = true ->
      writes (snd run) = S (writes w))
  /\ (truthy v = false -> arg_truthy f = false ->
      forall first others,
        all_matches = first :: others -> run = (Ok first, w))
  /\ (truthy v = false -> arg_truthy f = false -> all_matches = [] ->
      let built := new_MetaData dt x (PStr "") unset_file CTNone in
      existsb (conflicts built) (db w) = false ->
      exists w',
        run = (Ok (set_pk (Some (next_pk (db w))) built), w')
        /\ writes w' = S (writes w)
        /\ db w' = db w ++ [set_pk (Some (next_pk (db w))) built]).
Proof.
  intros all_matches run.
  assert (run = bind (assign_file f (assign_value v
                                       (choose_target x dt all_matches)))
                     (fun st => if snd st then save storage_exists (fst st)
                                else ret (fst st)) w) as Hrun
    by apply upsert_supplied.
  set (st0 := choose_target x dt all_matches) in *.
  assert (snd (assign_value v st0) = true <->
          all_matches = [] \/ truthy v = true) as Hmod.
  { unfold assign_value, st0, choose_target.
    destruct (truthy v), all_matches; cbn [snd]; split; intros H;
      try tauto; by destruct H. }
  assert (forall st' : MetaData * bool,
            let res := (if snd st' then save storage_exists (fst st')
                        else ret (fst st')) w in
            writes w <= writes (snd res) <= S (writes w)
            /\ (writes (snd res) = S (writes w) -> snd st' = true)
            /\ (forall r, fst res = Ok r -> snd st' = true ->
                          writes (snd res) = S (writes w))) as Hsave.
  { intros [r b]. cbn [fst snd]. destruct b.
    - destruct (save_cases storage_exists r w)
        as [(w' & -> & _ & Hwr & _) | (r' & w' & -> & Hwr & _)]; cbn [fst snd].
      + split; [lia|]. split; [done|]. intros; discriminate.
      + split; [lia|]. split; done.
    - unfold ret. cbn [fst snd]. split; [lia|]. split; [lia|].
      intros; discriminate. }
  unfold bind in Hrun.
  destruct (assign_file_cases f (assign_value v st0) w)
    as [[Hf Hassign] | [Hf [[r Hassign] | Hassign]]].
  - (* no file *)
    rewrite Hassign in Hrun.
    destruct (Hsave (assign_value v st0)) as (H1 & H2 & H3).
    rewrite <- Hrun in H1, H2, H3.
    split; [done|]. split; [intros E; apply H2, Hmod in E; tauto|].
    split.
    { intros r Hr [E | [E | E]]; [| | congruence];
        apply (H3 r Hr), Hmod; tauto. }
    split.
    + intros Hv _ first others Hall. rewrite Hrun.
      unfold assign_value, st0. rewrite Hv, Hall. done.
    + intros Hv _ Hall built Hfree.
      assert (run = Model_save built w) as ->.
      { rewrite Hrun. unfold assign_value, st0. rewrite Hv, Hall. done. }
      destruct (Model_save_cases built w)
        as [[_ Hc] | (r' & w' & -> & _ & Hr' & Hwr & _ & _ & Hdb)].
      { change (is_None (data_value built)) with false in Hc.
        cbn [orb] in Hc. congruence. }
      change (pk built) with (@None Z) in Hr'. cbv iota in Hr'. subst r'.
      cbv zeta in Hdb. rewrite next_pk_fresh in Hdb.
      exists w'. by repeat split.
  - (* a file *)
    rewrite Hassign in Hrun. cbn [fst snd] in Hrun.
    destruct (Hsave (r, true)) as (H1 & H2 & H3).
    cbn [fst snd] in H1, H2, H3. rewrite <- Hrun in H1, H2, H3.
    split; [done|]. split; [tauto|].
    split; [by intros r' Hr' _; apply (H3 r')|].
    split; intros; congruence.
  - (* not a file: AttributeError *)
    rewrite Hassign in Hrun. rewrite Hrun. cbn [fst snd].
    split; [lia|]. split; [lia|]. split; [intros; discriminate|].
    split; intros; congruence.
Qed.

Lemma upsert_writes_witness :
  unique_type_for_form nothing_stored 1 "form_license" PNone ANone
                       (Some [license_row]) (world_of [license_row])
  = (Ok license_row, world_of [license_row]).
Proof.
  destruct (upsert_writes nothing_stored 1 "form_license" PNone ANone
              license_row [] (world_of [license_row])) as (_ & _ & _ & H & _).
  exact (H eq_refl eq_refl license_row [] eq_refl).
Defined.

(** ** The uniqueness constraint (line 139) *)

Lemma same_triple_sym a b : same_triple a b = same_triple b a.
Proof.
  unfold same_triple.
  by rewrite (Z.eqb_sym (xform a)), (String.eqb_sym (data_type a)),
       (String.eqb_sym (force_text (data_value a))).
Qed.

Lemma map_fmap {A B} (g : A -> B) (l : list A) : map g l = g <$> l.
Proof. induction l as [|a l IH]; [done|]. simpl. by rewrite IH. Qed.

Lemma existsb_false_elem {A} (p : A -> bool) l a :
  existsb p l = false -> a ∈ l -> p a = false.
Proof.
  intros H Hin. apply not_true_is_false. intros Hp.
  assert (existsb p l = true); [|congruence].
  apply existsb_exists. exists a. split; [by apply list_elem_of_In | done].
Qed.

(** A row accepted by the table differs in its triple from every row under
    another key. *)
Lemma accepted_row_distinct r r' row rows x :
  keyed rows ->
  existsb (conflicts r) rows = false ->
  r' = match pk r with
       | Some _ => r
       | None => set_pk (Some (next_pk rows)) r
       end ->
  row = set_data_value (PStr (force_text (data_value r'))) r' ->
  x ∈ rows -> pk x <> pk r' ->
  same_triple row x = false /\ same_triple x row = false.
Proof.
  intros [Hkey _] Hfree Hr' Hrow Hin Hpk.
  assert (same_triple row x = same_triple r x) as Hsame.
  { rewrite Hrow, Hr'. unfold same_triple. by destruct (pk r). }
  assert (same_pk r x = false) as Hk.
  { unfold same_pk. apply bool_decide_eq_false. intros E.
    destruct (pk r) eqn:Er.
    - rewrite Hr' in Hpk. congruence.
    - by apply (Hkey x Hin). }
  pose proof (existsb_false_elem _ _ _ Hfree Hin) as Hc.
  unfold conflicts in Hc. rewrite Hk, andb_true_r in Hc.
  split; [by rewrite Hsame | by rewrite same_triple_sym, Hsame].
Qed.

Lemma Model_save_invariant r w o w' :
  keyed (db w) -> unique_together (db w) ->
  Model_save r w = (o, w') ->
  keyed (db w') /\ unique_together (db w').
Proof.
  intros Hkeyed Huniq Hsave.
  destruct (Model_save_cases r w)
    as [[E _] | (r' & w1 & E & Hc & Hr' & _ & _ & _ & Hdb)];
    rewrite E in Hsave; injection Hsave as <- <-; [done|].
  apply orb_false_iff in Hc as [_ Hfree].
  cbv zeta in Hdb.
  set (row := set_data_value (PStr (force_text (data_value r'))) r') in *.
  assert (pk row = pk r') as Hpkrow by done.
  assert (pk r' <> None) as Hsome.
  { rewrite Hr'. destruct (pk r) eqn:Er; [by rewrite Er | done]. }
  pose proof (fun x => accepted_row_distinct r r' row (db w) x Hkeyed Hfree
                         Hr' eq_refl) as Hdistinct.
  destruct Hkeyed as [Hkey Hinj].
  destruct (existsb (same_pk r') (db w)) eqn:Hex.
  - (* the row replaces the one under its key *)
    rewrite map_fmap in Hdb. rewrite Hdb.
    set (g := fun x => if same_pk r' x then row else x).
    assert (forall x, pk (g x) = pk x) as Hg.
    { intros x. unfold g, same_pk. case_bool_decide; [congruence | done]. }
    split; [split|].
    + intros a (x & -> & Hin)%list_elem_of_fmap. rewrite Hg. by apply Hkey.
    + intros i j a b (xa & -> & Ha)%list_lookup_fmap_Some
        (xb & -> & Hb)%list_lookup_fmap_Some Hpk.
      rewrite !Hg in Hpk. by apply (Hinj i j xa xb).
    + intros i j a b (xa & -> & Ha)%list_lookup_fmap_Some
        (xb & -> & Hb)%list_lookup_fmap_Some Hsame.
      pose proof (list_elem_of_lookup_2 _ _ _ Ha) as Hina.
      pose proof (list_elem_of_lookup_2 _ _ _ Hb) as Hinb.
      unfold g, same_pk in Hsame.
      do 2 case_bool_decide.
      * apply (Hinj i j xa xb Ha Hb). congruence.
      * destruct (Hdistinct xb Hinb) as [Hd _]; [congruence|]. congruence.
      * destruct (Hdistinct xa Hina) as [_ Hd]; [congruence|]. congruence.
      * by apply (Huniq i j xa xb).
  - (* the row is appended *)
    rewrite Hdb.
    assert (forall x, x ∈ db w -> pk x <> pk r') as Hne.
    { intros x Hin Epk. pose proof (existsb_false_elem _ _ _ Hex Hin) as Hx.
      unfold same_pk in Hx. apply bool_decide_eq_false in Hx. congruence. }
    split; [split|].
    + intros a [Hin | ->%list_elem_of_singleton]%elem_of_app;
        [by apply Hkey | congruence].
    + intros i j a b Ha Hb Hpk.
      apply lookup_app_Some in Ha as [Ha | [Hi Ha]];
        apply lookup_app_Some in Hb as [Hb | [Hj Hb]].
      * by apply (Hinj i j a b).
      * apply list_lookup_singleton_Some in Hb as [_ <-].
        apply list_elem_of_lookup_2 in Ha. apply Hne in Ha. congruence.
      * apply list_lookup_singleton_Some in Ha as [_ <-].
        apply list_elem_of_lookup_2 in Hb. apply Hne in Hb. congruence.
      * apply list_lookup_singleton_Some in Ha as [Ha _].
        apply list_lookup_singleton_Some in Hb as [Hb _]. lia.
    + intros i j a b Ha Hb Hsame.
      apply lookup_app_Some in Ha as [Ha | [Hi Ha]];
        apply lookup_app_Some in Hb as [Hb | [Hj Hb]].
      * by apply (Huniq i j a b).
      * apply list_lookup_singleton_Some in Hb as [_ <-].
        apply list_elem_of_lookup_2 in Ha.
        destruct (Hdistinct a Ha (Hne a Ha)) as [_ Hd]. congruence.
      * apply list_lookup_singleton_Some in Ha as [_ <-].
        apply list_elem_of_lookup_2 in Hb.
        destruct (Hdistinct b Hb (Hne b Hb)) as [Hd _]. congruence.
      * apply list_lookup_singleton_Some in Ha as [Ha _].
        apply list_lookup_singleton_Some in Hb as [Hb _]. lia.
Qed.

Lemma save_invariant storage_exists r w o w' :
  keyed (db w) -> unique_together (db w) ->
  save storage_exists r w = (o, w') ->
  keyed (db w') /\ unique_together (db w').
Proof.
  intros Hkeyed Huniq. unfold save, bind.
  destruct (set_hash_frame storage_exists r w)
    as (h & r1 & w1 & -> & Hdb & _).
  cbn [snd]. rewrite <- Hdb in Hkeyed, Huniq.
  by apply Model_save_invariant.
Qed.

Lemma persisted_invariant storage_exists rows :
  persisted storage_exists rows -> keyed rows /\ unique_together rows.
Proof.
  induction 1 as [|r w o w' _ [IH1 IH2] Hsave].
  - split; [split|]; try (intros ? ? ? ? H; by rewrite lookup_nil in H).
    intros a Hin. by apply elem_of_nil in Hin.
  - by apply (save_invariant storage_exists r w o w').
Qed.

(** A new record whose triple a keyed row already holds is refused. *)
Lemma save_duplicate_refused storage_exists dt x v f ft held w :
  keyed (db w) ->
  held ∈ db w -> xform held = x -> data_type held = dt ->
  force_text (data_value held) = force_text v ->
  exists w',
    save storage_exists (new_MetaData dt x v f ft) w
    = (Raise IntegrityError, w')
    /\ db w' = db w /\ writes w' = writes w.
Proof.
  intros [Hkey _] Hin Hx Hdt Hv.
  destruct (save_cases storage_exists (new_MetaData dt x v f ft) w)
    as [(w' & E & Hdb & Hwr & _) | (r' & w' & _ & _ & _ & Hc & _)];
    [by exists w'|].
  apply orb_false_iff in Hc as [_ Hfree].
  pose proof (existsb_false_elem _ _ _ Hfree Hin) as Hheld.
  unfold conflicts, same_triple, same_pk in Hheld.
  cbn [xform data_type data_value pk new_MetaData] in Hheld.
  rewrite Hx, Hdt, Hv, Z.eqb_refl, !String.eqb_refl in Hheld.
  rewrite bool_decide_eq_false_2 in Hheld; [done|].
  intros E. by apply (Hkey held Hin).
Qed.

(** C10: the table holds at most one row per (xform, data_type,
    data_value): every table that [save] calls produce from the empty one
    satisfies it; and an append of [supporting_docs], of [media_upload]
    (for a file of an allowed type) or of [external_export] whose triple a
    row already holds raises [IntegrityError] at its [save], leaving rows
    and write count as they were. *)
Theorem unique_together_enforced storage_exists urlvalidate guess_type
    requests_get (TYPES : list string) :
  (forall rows, persisted storage_exists rows -> unique_together rows)
  /\ (forall x f form_metadata w held,
        persisted storage_exists (db w) ->
        file_truthy f = true ->
        held ∈ db w -> xform held = x -> data_type held = "supporting_doc" ->
        force_text (data_value held) = force_text (name_value f) ->
        exists w',
          supporting_docs storage_exists x (Some f) form_metadata w
          = (Raise IntegrityError, w')
          /\ db w' = db w /\ writes w' = writes w)
  /\ (forall x f download form_metadata w held,
        persisted storage_exists (db w) ->
        file_truthy f = true ->
        allowed TYPES (upload_content_type guess_type TYPES f) = true ->
        held ∈ db w -> xform held = x -> data_type held = "media" ->
        force_text (data_value held) = force_text (name_value f) ->
        exists w',
          media_upload urlvalidate guess_type requests_get storage_exists
                       TYPES x (Some f) download form_metadata w
          = (Raise IntegrityError, w')
          /\ db w' = db w /\ writes w' = writes w)
  /\ (forall x v w held,
        persisted storage_exists (db w) ->
        truthy v = true ->
        held ∈ db w -> xform held = x -> data_type held = "external_export" ->
        force_text (data_value held) = force_text v ->
        exists w',
          external_export storage_exists x v w = (Raise IntegrityError, w')
          /\ db w' = db w /\ writes w' = writes w).
Proof.
  split; [intros rows H; by apply (persisted_invariant storage_exists)|].
  split; [|split].
  - intros x f fm w held Hp Hf Hin Hx Hdt Hv.
    apply persisted_invariant in Hp as [Hkeyed _].
    destruct (save_duplicate_refused storage_exists "supporting_doc" x
                (name_value f) f (file_content_type f) held w
                Hkeyed Hin Hx Hdt Hv) as (w' & E & Hdb & Hwr).
    exists w'. split; [|done].
    unfold supporting_docs. rewrite Hf. unfold bind. by rewrite E.
  - intros x f download fm w held Hp Hf Hallowed Hin Hx Hdt Hv.
    apply persisted_invariant in Hp as [Hkeyed _].
    destruct (save_duplicate_refused storage_exists "media" x
                (name_value f) f (upload_content_type guess_type TYPES f)
                held w Hkeyed Hin Hx Hdt Hv) as (w' & E & Hdb & Hwr).
    exists w'. split; [|done].
    unfold media_upload. rewrite Hf, Hallowed. unfold bind. by rewrite E.
  - intros x v w held Hp Hv Hin Hx Hdt Hval.
    apply persisted_invariant in Hp as [Hkeyed _].
    destruct (save_duplicate_refused storage_exists "external_export" x
                v unset_file CTNone held w Hkeyed Hin Hx Hdt Hval)
      as (w' & E & Hdb & Hwr).
    exists w'. split; [|done].
    unfold external_export. rewrite Hv. unfold bind. by rewrite E.
Qed.

Lemma unique_together_enforced_witness :
  save nothing_stored notes_record empty_world
  = (Ok notes_row, {| db := [notes_row]; log := []; writes := 1; reads := 1 |})
  /\ exists w',
       supporting_docs nothing_stored 7 (Some notes_file) None
         {| db := [notes_row]; log := []; writes := 1; reads := 1 |}
       = (Raise IntegrityError, w')
       /\ db w' = [notes_row] /\ writes w' = 1.
Proof.
  assert (save nothing_stored notes_record empty_world
          = (Ok notes_row,
             {| db := [notes_row]; log := []; writes := 1; reads := 1 |}))
    as Hsave by (by vm_compute).
  split; [exact Hsave|].
  pose proof (persisted_save nothing_stored notes_record empty_world _ _
                (persisted_empty _) Hsave) as Hp.
  destruct (unique_together_enforced nothing_stored https_only guess_png
              fetch_2048 []) as (_ & H & _).
  destruct (H 7%Z notes_file None _ notes_row Hp eq_refl) as (w' & E & Hdb & Hwr).
  - apply list_elem_of_singleton. reflexivity.
  - reflexivity.
  - reflexivity.
  - reflexivity.
  - exists w'. split; [exact E|]. split; [exact Hdb | exact Hwr].
Defined.

(** ** The other callers of the lookup *)

(** [mapbox_layer_upload], [form_license] and [data_license] call the
    upsert as [public_link] does, and end in the same [TypeError]; the
    codec lines are reached only on a record obtained otherwise. *)
Lemma positional_callers_raise storage_exists keys x data v form_metadata w :
  mapbox_layer_upload storage_exists keys x data form_metadata w
  = (Raise TypeError, w)
  /\ form_license storage_exists x v form_metadata w = (Raise TypeError, w)
  /\ data_license storage_exists x v form_metadata w = (Raise TypeError, w).
Proof. done. Qed.

(** The listing branch of [external_export] raises [NameError]. *)
Lemma external_export_listing_raises storage_exists x v w :
  truthy v = false ->
  external_export storage_exists x v w = (Raise NameError, w).
Proof. intros Hv. unfold external_export. by rewrite Hv. Qed.

(** * Further properties of the module *)

(** ** Storage paths (lines 31-42) *)

Lemma append_assoc3 s t u : (s +:+ t) +:+ u = s +:+ t +:+ u.
Proof.
  induction s as [|c s IH]; [done|]. rewrite !append_cons. by rewrite IH.
Qed.

Lemma append_nonempty_r s t : t <> "" -> s +:+ t <> "".
Proof. intros Ht. destruct s; [done|]. by rewrite append_cons. Qed.

Lemma ends_with_slash_app s t :
  t <> "" -> ends_with_slash (s +:+ t) = ends_with_slash t.
Proof.
  intros Ht. induction s as [|c s IH]; [done|].
  rewrite append_cons. cbn [ends_with_slash].
  destruct (s +:+ t) eqn:E; [by apply append_nonempty_r in E|]. exact IH.
Qed.

Lemma eqb_empty_false s : s <> "" -> (s =? "") = false.
Proof. intros H. by apply String.eqb_neq. Qed.

Lemma has_char_app c s t :
  has_char c (s +:+ t) = has_char c s || has_char c t.
Proof.
  induction s as [|a s IH]; [done|].
  rewrite append_cons. cbn [has_char]. by rewrite IH, orb_assoc.
Qed.

Lemma slash_free_not_absolute s :
  has_char "/" s = false -> String.prefix "/" s = false.
Proof.
  destruct s as [|a s]; [done|]. intros [Hne _]%has_char_cons_false.
  by apply prefix_other_head.
Qed.

(** X1: [upload_to] puts an attachment under
    [<username>/formid-media/<filename>] for a record of type [media] and
    under [<username>/docs/<filename>] otherwise, when the username is not
    empty and does not end with [/] and the filename is not absolute; an
    absolute filename is returned alone, without the owner's directory;
    and when neither name contains [/] the path has exactly the three
    components, so its last component is the filename again. *)
Theorem upload_to_path username_of (instance : MetaData) (filename : string) :
  let user := username_of (xform instance) in
  let dir := if data_type instance =? "media" then "formid-media"
             else "docs" in
  (String.prefix "/" filename = true ->
   upload_to username_of instance filename = filename)
  /\ (String.prefix "/" filename = false ->
      user <> "" -> ends_with_slash user = false ->
      upload_to username_of instance filename
      = user +:+ "/" +:+ dir +:+ "/" +:+ filename)
  /\ (has_char "/" user = false -> has_char "/" filename = false ->
      user <> "" -> ends_with_slash user = false ->
      split "/" (upload_to username_of instance filename)
      = [user; dir; filename]
      /\ last_piece (split "/" (upload_to username_of instance filename))
         = filename).
Proof.
  intros user dir.
  assert (String.prefix "/" filename = false ->
          user <> "" -> ends_with_slash user = false ->
          upload_to username_of instance filename
          = user +:+ "/" +:+ dir +:+ "/" +:+ filename) as Hrel.
  { intros Hrel Hne Hend. unfold upload_to, os_path_join. fold user.
    assert (forall d, String.prefix "/" d = false -> d <> "" ->
              ends_with_slash d = false ->
              join_component (join_component user d) filename
              = user +:+ "/" +:+ d +:+ "/" +:+ filename) as Hjoin.
    { intros d Hd Hdne Hdend. unfold join_component at 2.
      rewrite Hd, (eqb_empty_false _ Hne), Hend. cbn [orb].
      unfold join_component. rewrite Hrel.
      rewrite eqb_empty_false
        by (apply append_nonempty_r, append_nonempty_r, Hdne).
      rewrite ends_with_slash_app by (by apply append_nonempty_r).
      rewrite ends_with_slash_app by done. rewrite Hdend. cbn [orb].
      by rewrite !append_assoc3. }
    unfold dir. destruct (data_type instance =? "media"); cbn [foldl];
      by apply Hjoin. }
  split; [|split; [exact Hrel|]].
  - intros Habs. unfold upload_to, os_path_join.
    destruct (data_type instance =? "media"); cbn [foldl];
      unfold join_component at 1; by rewrite Habs.
  - intros Hu Hf Hne Hend.
    rewrite (Hrel (slash_free_not_absolute _ Hf) Hne Hend).
    assert (has_char "/" dir = false) as Hd
      by (unfold dir; by destruct (data_type instance =? "media")).
    assert (split "/" (user +:+ "/" +:+ dir +:+ "/" +:+ filename)
            = [user; dir; filename]) as E.
    { rewrite (split_cons "/"%char "" user _ Hu).
      rewrite (split_cons "/"%char "" dir _ Hd).
      by rewrite (split_free "/"%char "" filename Hf). }
    rewrite E. done.
Qed.

(** ** The prefetched listing (lines 68-81) *)

Lemma newer_first_total : Total newer_first.
Proof. intros a b. unfold newer_first. lia. Qed.

Lemma newer_first_trans : Transitive newer_first.
Proof. intros a b c. unfold newer_first. lia. Qed.

Lemma StronglySorted_filter_keep {A} (R : relation A) (P : A -> Prop)
    `{!forall a, Decision (P a)} (l : list A) :
  StronglySorted R l -> StronglySorted R (filter P l).
Proof.
  induction 1 as [|a l Hl IH Hall]; [constructor|].
  rewrite filter_cons. destruct (decide (P a)); [|done].
  constructor; [done|]. rewrite Forall_forall in *.
  intros y [_ Hy]%list_elem_of_filter. by apply Hall.
Qed.

Lemma order_by_id_desc_sorted rows :
  StronglySorted newer_first (order_by_id_desc rows)
  /\ order_by_id_desc rows ≡ₚ rows.
Proof.
  split; [|apply merge_sort_Permutation].
  apply (@StronglySorted_merge_sort _ newer_first _
           newer_first_trans newer_first_total).
Qed.

(** X3: the lookup over the list that [metadata_for_form] prefetched.  For
    a form without any row the list is empty, which counts as not given,
    and [type_for_form] raises [TypeError] from its query branch.
    Otherwise it returns, without touching the world, exactly the form's
    rows of the asked type, most recent first; so when there is a match
    the target that [unique_type_for_form] picks is the form's row of that
    type with the highest id. *)
Theorem type_for_form_prefetched x dt w :
  let rows := order_by_id_desc (filter (fun m => xform m = x) (db w)) in
  let matches := filter (fun m => data_type m = dt) rows in
  metadata_for_form x w = (Ok rows, w)
  /\ ((forall r, r ∈ db w -> xform r <> x) ->
      type_for_form x dt (Some rows) w = (Raise TypeError, w))
  /\ ((exists r, r ∈ db w /\ xform r = x) ->
      type_for_form x dt (Some rows) w = (Ok matches, w)
      /\ StronglySorted newer_first matches
      /\ (forall r, r ∈ matches <->
                    r ∈ db w /\ xform r = x /\ data_type r = dt)
      /\ (forall first others,
            matches = first :: others ->
            choose_target x dt matches = (first, false)
            /\ forall r, r ∈ db w -> xform r = x -> data_type r = dt ->
                         (default 0 (pk r) <= default 0 (pk first))%Z)).
Proof.
  intros rows matches.
  destruct (order_by_id_desc_sorted (filter (fun m => xform m = x) (db w)))
    as [Hs Hp]. fold rows in Hs, Hp.
  assert (forall r, r ∈ rows <-> r ∈ db w /\ xform r = x) as Hin.
  { intros r. rewrite Hp, list_elem_of_filter. tauto. }
  assert (forall r, r ∈ matches <->
                    r ∈ db w /\ xform r = x /\ data_type r = dt) as Hmatch.
  { intros r. unfold matches. rewrite list_elem_of_filter, Hin. tauto. }
  split; [done|]. split.
  - intros Hnone. assert (rows = []) as ->; [|done].
    apply elem_of_nil_inv. intros r [Hr Hx]%Hin. by apply (Hnone r).
  - intros (r0 & Hr0 & Hx0).
    assert (rows <> []) as Hne.
    { intros E. assert (r0 ∈ rows) as H0 by (by apply Hin).
      rewrite E in H0. by apply elem_of_nil in H0. }
    assert (StronglySorted newer_first matches) as Hsm
      by (by apply StronglySorted_filter_keep).
    split; [by destruct rows|]. split; [done|]. split; [done|].
    intros first others E. split; [by rewrite E|].
    intros r Hr Hx Hdt.
    assert (r ∈ matches) as Hrm by (by apply Hmatch).
    rewrite E in Hrm, Hsm. apply StronglySorted_inv in Hsm as [_ Hall].
    apply elem_of_cons in Hrm as [-> | Hrm]; [lia|].
    rewrite Forall_forall in Hall. by apply Hall.
Qed.

(** ** The upsert over a prefetched list (lines 45-65) *)

Lemma pk_not_next rows y :
  y ∈ rows -> pk y <> Some (next_pk rows).
Proof.
  intros Hin E. apply list_elem_of_In in Hin.
  pose proof (pk_below_next rows y Hin) as Hlt. rewrite E in Hlt.
  simpl in Hlt. lia.
Qed.

Lemma existsb_false_all {A} (p : A -> bool) l :
  (forall a, a ∈ l -> p a = false) -> existsb p l = false.
Proof.
  intros H. induction l as [|a l IH]; [done|]. cbn [existsb].
  rewrite H by apply list_elem_of_here. rewrite IH; [done|].
  intros b Hb. apply H. by apply list_elem_of_further.
Qed.

Lemma replace_row_absent r row rows :
  (forall y, y ∈ rows -> pk y <> pk r) ->
  map (fun y => if same_pk r y then row else y) rows = rows.
Proof.
  intros H. induction rows as [|y rows IH]; [done|]. cbn [map].
  rewrite IH by (intros z Hz; apply H; by apply list_elem_of_further).
  unfold same_pk. rewrite bool_decide_eq_false_2; [done|].
  intros E. by apply (H y (list_elem_of_here _ _)).
Qed.

Lemma upsert_value_on_target storage_exists x dt v l target flag w :
  l <> [] ->
  choose_target x dt (filter (fun r => data_type r = dt) l) = (target, flag) ->
  v <> "" ->
  file_truthy (data_file target) = false ->
  unique_type_for_form storage_exists x dt (PStr v) ANone (Some l) w
  = Model_save (set_data_value (PStr v) target) w.
Proof.
  intros Hl Htarget Hv Hfile. destruct l as [|m l]; [done|].
  rewrite upsert_supplied, Htarget. unfold assign_value.
  rewrite (truthy_PStr _ Hv). unfold bind. cbn [assign_file arg_truthy].
  unfold ret at 1. cbn [fst snd]. unfold save, bind, _set_hash.
  cbn [data_file set_data_value]. by rewrite Hfile.
Qed.

Lemma no_conflict_other_kind r rows :
  (forall y, y ∈ rows -> xform y = xform r -> data_type y = data_type r ->
             pk y = pk r) ->
  existsb (conflicts r) rows = false.
Proof.
  intros H. apply existsb_false_all. intros y Hy.
  unfold conflicts, same_triple, same_pk.
  destruct (xform r =? xform y)%Z eqn:Ex; [|done].
  destruct (data_type r =? data_type y) eqn:Et; [|done].
  apply Z.eqb_eq in Ex. apply String.eqb_eq in Et.
  rewrite bool_decide_eq_true_2 by (symmetry; by apply H).
  by rewrite andb_false_r.
Qed.

(** X4: the single-record behaviour on the path that works.  For a form
    that has rows, none of the asked type, an upsert of a non-empty value
    through the list prefetched by [metadata_for_form] stores one new row
    under a fresh id; a second upsert through a newly prefetched list finds
    that row and overwrites its value in place.  After the two calls the
    table is the old one plus one row of (form, type), holding the second
    value, and two writes were made. *)
Theorem upsert_twice_prefetched storage_exists x dt (v1 v2 : string) w :
  v1 <> "" -> v2 <> "" ->
  (exists r, r ∈ db w /\ xform r = x) ->
  (forall r, r ∈ db w -> xform r = x -> data_type r <> dt) ->
  let stored := fun v =>
    {| pk := Some (next_pk (db w)); xform := x; data_type := dt;
       data_value := PStr v; data_file := unset_file;
       data_file_type := CTNone; file_hash := None |} in
  let upsert := fun v =>
    bind (metadata_for_form x)
         (fun l => unique_type_for_form storage_exists x dt (PStr v) ANone
                                        (Some l)) in
  upsert v1 w
  = (Ok (stored v1),
     {| db := db w ++ [stored v1]; log := log w; writes := S (writes w);
        reads := reads w |})
  /\ bind (upsert v1) (fun _ => upsert v2) w
     = (Ok (stored v2),
        {| db := db w ++ [stored v2]; log := log w;
           writes := S (S (writes w)); reads := reads w |})
  /\ filter (fun r => xform r = x /\ data_type r = dt) (db w ++ [stored v2])
     = [stored v2].
Proof.
  intros Hv1 Hv2 (r0 & Hr0 & Hx0) Hnone stored upsert.
  set (w1 := {| db := db w ++ [stored v1]; log := log w;
                writes := S (writes w); reads := reads w |}).
  assert (forall wa, (exists r, r ∈ db wa /\ xform r = x) ->
            order_by_id_desc (filter (fun m => xform m = x) (db wa)) <> [])
    as Hnonempty.
  { intros wa (r & Hr & Hx) E.
    destruct (type_for_form_prefetched x dt wa) as (_ & _ & H).
    destruct (H (ex_intro _ r (conj Hr Hx))) as (Htf & _).
    rewrite E in Htf. discriminate. }
  assert (upsert v1 w = (Ok (stored v1), w1)) as Hfirst.
  { unfold upsert, bind, metadata_for_form.
    rewrite (upsert_value_on_target storage_exists x dt v1 _
               (new_MetaData dt x (PStr "") unset_file CTNone) true w).
    - unfold Model_save.
      rewrite no_conflict_other_kind.
      2:{ intros y Hy Hx Ht. by destruct (Hnone y Hy Hx Ht). }
      cbn [is_None data_value set_data_value new_MetaData orb pk].
      rewrite next_pk_fresh. done.
    - apply Hnonempty. by exists r0.
    - assert (filter (fun r => data_type r = dt)
                (order_by_id_desc (filter (fun m => xform m = x) (db w)))
              = []) as ->; [|done].
      apply elem_of_nil_inv. intros r [Ht Hr]%list_elem_of_filter.
      destruct (order_by_id_desc_sorted
                  (filter (fun m => xform m = x) (db w))) as [_ Hp].
      rewrite Hp in Hr. apply list_elem_of_filter in Hr as [Hx Hr].
      by apply (Hnone r Hr Hx).
    - done.
    - done. }
  assert (filter (fun r => data_type r = dt) (filter (fun m => xform m = x)
                                                (db w)) = []) as Hold.
  { apply elem_of_nil_inv. intros r [Ht [Hx Hr]%list_elem_of_filter]%list_elem_of_filter.
    by apply (Hnone r Hr Hx). }
  split; [exact Hfirst|]. split.
  - unfold bind at 1. rewrite Hfirst.
    unfold upsert, bind, metadata_for_form.
    rewrite (upsert_value_on_target storage_exists x dt v2 _
               (stored v1) false w1).
    + unfold Model_save.
      rewrite no_conflict_other_kind.
      2:{ intros y Hy Hx Ht. cbn [db w1] in Hy.
          apply elem_of_app in Hy as [Hy | ->%list_elem_of_singleton];
            [|done].
          by destruct (Hnone y Hy Hx Ht). }
      cbn [is_None data_value set_data_value stored orb pk db w1].
      rewrite existsb_app. cbn [existsb]. unfold same_pk at 2.
      rewrite bool_decide_eq_true_2 by done. rewrite orb_true_r.
      rewrite map_app, replace_row_absent.
      2:{ intros y Hy. by apply pk_not_next. }
      cbn [map]. unfold same_pk. rewrite bool_decide_eq_true_2 by done.
      done.
    + apply Hnonempty. exists r0. split; [|done].
      cbn [db w1]. apply elem_of_app. by left.
    + assert (filter (fun r => data_type r = dt)
                (order_by_id_desc (filter (fun m => xform m = x) (db w1)))
              = [stored v1]) as ->; [|done].
      symmetry. apply Permutation_singleton_l.
      destruct (order_by_id_desc_sorted
                  (filter (fun m => xform m = x) (db w1))) as [_ Hp].
      rewrite Hp. cbn [db w1]. rewrite !filter_app, Hold.
      rewrite !filter_cons_True by done. done.
    + done.
    + done.
  - rewrite filter_app.
    assert (filter (fun r => xform r = x /\ data_type r = dt) (db w) = [])
      as ->.
    { apply elem_of_nil_inv. intros r [[Hx Ht] Hr]%list_elem_of_filter.
      by apply (Hnone r Hr Hx). }
    by rewrite filter_cons_True by done.
Qed.

(** ** What a write touches *)

Lemma Model_save_frame r w o w' :
  Model_save r w = (o, w') ->
  log w' = log w /\ reads w' = reads w
  /\ (forall e, o = Raise e -> e = IntegrityError /\ w' = w)
  /\ (forall r', o = Ok r' ->
        writes w' = S (writes w)
        /\ (pk r = None ->
            pk r' = Some (next_pk (db w))
            /\ db w' = db w
                       ++ [set_data_value (PStr (force_text (data_value r)))
                                          r'])
        /\ length (db w) <= length (db w') <= S (length (db w))
        /\ (forall y, y ∈ db w -> pk y <> pk r' -> y ∈ db w')).
Proof.
  intros Hsave.
  destruct (Model_save_cases r w)
    as [[E _] | (r1 & w1 & E & _ & Hr1 & Hwr & Hlog & Hrd & Hdb)];
    rewrite E in Hsave; injection Hsave as <- <-.
  - split; [done|]. split; [done|]. split; [|done].
    intros e [= <-]. done.
  - split; [done|]. split; [done|]. split; [done|].
    intros r' [= <-]. split; [done|]. cbv zeta in Hdb. split.
    + intros Hnone. rewrite Hnone in Hr1. subst r1.
      rewrite next_pk_fresh in Hdb. done.
    + destruct (existsb (same_pk r1) (db w)).
      * rewrite Hdb, length_map. split; [lia|].
        intros y Hy Hpk. rewrite map_fmap. apply list_elem_of_fmap.
        exists y. split; [|done]. unfold same_pk.
        by rewrite bool_decide_eq_false_2.
      * rewrite Hdb, length_app. cbn [length]. split; [lia|].
        intros y Hy _. apply elem_of_app. by left.
Qed.

Lemma save_frame storage_exists r w o w' :
  save storage_exists r w = (o, w') ->
  log w' = log w
  /\ (forall e, o = Raise e -> e = IntegrityError /\ db w' = db w
                               /\ writes w' = writes w)
  /\ (forall r', o = Ok r' ->
        writes w' = S (writes w)
        /\ (pk r = None ->
            pk r' = Some (next_pk (db w))
            /\ db w' = db w
                       ++ [set_data_value (PStr (force_text (data_value r)))
                                          r'])
        /\ length (db w) <= length (db w') <= S (length (db w))
        /\ (forall y, y ∈ db w -> pk y <> pk r' -> y ∈ db w')).
Proof.
  unfold save, bind.
  destruct (set_hash_frame storage_exists r w)
    as (h & r1 & w1 & -> & Hdb & Hlog & Hwr & _ & Hpk & _ & _ & Hv & _).
  cbn [snd]. intros Hsave.
  destruct (Model_save_frame r1 w1 o w' Hsave) as (Hl & _ & Hraise & Hok).
  rewrite Hdb, Hwr, Hpk, Hv in *.
  split; [congruence|]. split.
  - intros e He. destruct (Hraise e He) as [-> ->]. done.
  - exact Hok.
Qed.

(** X5: what an upsert touches.  Whatever its arguments,
    [unique_type_for_form] leaves the log alone; when it raises, the table
    is as it was; when it returns a record, the table has the same rows or
    one more, and every row whose id is not the returned record's id is
    still there unchanged. *)
Theorem unique_type_for_form_frame storage_exists x dt v f form_metadata w :
  let run := unique_type_for_form storage_exists x dt v f form_metadata w in
  log (snd run) = log w
  /\ (forall e, fst run = Raise e ->
        db (snd run) = db w /\ writes (snd run) = writes w)
  /\ (forall r, fst run = Ok r ->
        length (db w) <= length (db (snd run)) <= S (length (db w))
        /\ (forall y, y ∈ db w -> pk y <> pk r -> y ∈ db (snd run))).
Proof.
  intros run.
  assert (forall (o : outcome MetaData),
            (forall r, o <> Ok r) ->
            log w = log w
            /\ (forall e, o = Raise e -> db w = db w /\ writes w = writes w)
            /\ (forall r, o = Ok r ->
                  length (db w) <= length (db w) <= S (length (db w))
                  /\ (forall y, y ∈ db w -> pk y <> pk r -> y ∈ db w)))
    as Hraise.
  { intros o Ho. split; [done|]. split; [done|]. intros r ->.
    by destruct (Ho r). }
  assert (forall st' : MetaData * bool,
            let res := (if snd st' then save storage_exists (fst st')
                        else ret (fst st')) w in
            log (snd res) = log w
            /\ (forall e, fst res = Raise e ->
                  db (snd res) = db w /\ writes (snd res) = writes w)
            /\ (forall r, fst res = Ok r ->
                  length (db w) <= length (db (snd res)) <= S (length (db w))
                  /\ (forall y, y ∈ db w -> pk y <> pk r ->
                                y ∈ db (snd res)))) as Hsave.
  { intros [r b]. cbn [fst snd]. destruct b.
    2:{ unfold ret. cbn [fst snd]. split; [done|].
        split; [intros; discriminate|]. intros r' _. split; [lia | done]. }
    destruct (save storage_exists r w) as [o w'] eqn:E.
    destruct (save_frame storage_exists r w o w' E) as (Hl & Hr & Ho).
    cbn [fst snd]. split; [done|]. split.
    - intros e ->. by destruct (Hr e eq_refl) as (_ & ? & ?).
    - intros r' ->. by destruct (Ho r' eq_refl) as (_ & _ & ? & ?). }
  destruct form_metadata as [[|m l]|];
    [by apply (Hraise (Raise TypeError)) | |
     by apply (Hraise (Raise TypeError))].
  unfold run. rewrite upsert_supplied. unfold bind.
  set (st := assign_value v _).
  destruct (assign_file_cases f st w)
    as [[_ ->] | [_ [[r ->] | ->]]]; [apply Hsave | apply (Hsave (r, true)) |].
  by apply (Hraise (Raise AttributeError)).
Qed.

(** ** Listing media (lines 84-126) *)

Lemma create_media_cases urlvalidate guess_type requests_get media w :
  (exists o, create_media urlvalidate guess_type requests_get media w
             = (Ok o, w))
  \/ (exists e, create_media urlvalidate guess_type requests_get media w
                = (Raise e, w)
                /\ (e = RequestException \/ e = AttributeError)
                /\ ((exists s, data_value media = PStr s) ->
                    e = RequestException)).
Proof.
  unfold create_media.
  destruct (is_valid_url urlvalidate (data_value media)); [|left; by eexists].
  destruct (data_value media) as [| | |uri];
    try (right; exists AttributeError; split; [done|]; split; [by right|];
         by intros [s ?]).
  destruct (requests_get uri); [left; by eexists|].
  right. exists RequestException. split; [done|]. split; [by left | done].
Qed.

Lemma media_resources_world urlvalidate guess_type requests_get l d w :
  snd (media_resources urlvalidate guess_type requests_get l d w) = w.
Proof.
  induction l as [|m l IH]; [done|]. cbn [media_resources].
  destruct (bool_decide (file_name (data_file m) = Some "") && d).
  - unfold bind at 1.
    destruct (create_media_cases urlvalidate guess_type requests_get m w)
      as [[o ->] | (e & -> & _)]; [|done].
    unfold bind.
    destruct (media_resources urlvalidate guess_type requests_get l d w)
      as [[data|e] w']; cbn [snd] in IH; by subst w'.
  - unfold bind.
    destruct (media_resources urlvalidate guess_type requests_get l d w)
      as [[data|e] w']; cbn [snd] in IH; by subst w'.
Qed.

(** X6: [media_resources] works in memory only: whatever it is given, the
    world after the call is the world before it (a resolved record is not
    saved).  Without [download] it returns its list as it is.  When it
    returns, the result is no longer than the list, and the records whose
    attachment name is not the empty string appear in it unchanged and in
    their order. *)
Theorem media_resources_listing urlvalidate guess_type requests_get l w :
  media_resources urlvalidate guess_type requests_get l false w = (Ok l, w)
  /\ (forall d,
        snd (media_resources urlvalidate guess_type requests_get l d w) = w)
  /\ (forall d data,
        fst (media_resources urlvalidate guess_type requests_get l d w)
        = Ok data ->
        length data <= length l
        /\ filter (fun m => file_name (data_file m) <> Some "") l
             `sublist_of` data).
Proof.
  split; [|split].
  - induction l as [|m l IH]; [done|]. cbn [media_resources].
    rewrite andb_false_r. unfold bind. by rewrite IH.
  - intros d. apply media_resources_world.
  - intros d. induction l as [|m l IH]; intros data.
    + intros [= <-]. done.
    + cbn [media_resources].
      destruct (media_resources urlvalidate guess_type requests_get l d w)
        as [[rest|e] w'] eqn:E.
      2:{ destruct (bool_decide _ && d); unfold bind at 1.
          - destruct (create_media_cases urlvalidate guess_type requests_get
                        m w) as [[o ->] | (e' & -> & _)]; [|done].
            unfold bind. by rewrite E.
          - by rewrite E. }
      pose proof (media_resources_world urlvalidate guess_type requests_get
                    l d w) as Hw. rewrite E in Hw. cbn [snd] in Hw. subst w'.
      destruct (IH rest eq_refl) as [Hlen Hsub].
      destruct (bool_decide (file_name (data_file m) = Some "")) eqn:Hname.
      * apply bool_decide_eq_true in Hname.
        rewrite filter_cons_False by (intros H; by apply H).
        destruct d; cbn [andb]; unfold bind at 1.
        -- destruct (create_media_cases urlvalidate guess_type requests_get
                       m w) as [[o ->] | (e' & -> & _)]; [|done].
           unfold bind. rewrite E. unfold ret. cbn [fst].
           intros [= <-]. destruct o; cbn [length]; split; try lia; try done.
           by apply sublist_cons.
        -- rewrite E. unfold ret. cbn [fst]. intros [= <-]. cbn [length].
           split; [lia|]. by apply sublist_cons.
      * apply bool_decide_eq_false in Hname.
        rewrite filter_cons_True by done. cbn [andb]. unfold bind.
        rewrite E. unfold ret. cbn [fst]. intros [= <-]. cbn [length].
        split; [lia|]. by apply sublist_skip.
Qed.

(** X7: one failed fetch aborts the whole listing.  With [download], if
    some record of the list has the empty attachment name and a value the
    validator accepts but whose fetch fails, [media_resources] raises and
    returns no list at all; when every value in the list is a string the
    exception is the transport's. *)
Theorem media_resources_aborts urlvalidate guess_type requests_get l w
    media uri :
  media ∈ l ->
  file_name (data_file media) = Some "" ->
  data_value media = PStr uri ->
  urlvalidate uri = true ->
  requests_get uri = None ->
  (exists e,
      media_resources urlvalidate guess_type requests_get l true w
      = (Raise e, w))
  /\ ((forall m, m ∈ l -> exists s, data_value m = PStr s) ->
      media_resources urlvalidate guess_type requests_get l true w
      = (Raise RequestException, w)).
Proof.
  intros Hin Hname Hv Hvalid Hget.
  assert (create_media urlvalidate guess_type requests_get media w
          = (Raise RequestException, w)) as Hfail.
  { unfold create_media, is_valid_url. rewrite Hv. cbn [force_text].
    by rewrite Hvalid, Hget. }
  induction l as [|m l IH]; [by apply elem_of_nil in Hin|].
  apply elem_of_cons in Hin as [<- | Hin].
  - cbn [media_resources]. rewrite Hname.
    rewrite bool_decide_eq_true_2 by done. cbn [andb]. unfold bind at 1 3.
    rewrite Hfail. split; [by eexists | done].
  - destruct (IH Hin) as [[e He] Hstr]. cbn [media_resources].
    destruct (bool_decide (file_name (data_file m) = Some "")); cbn [andb].
    + destruct (create_media_cases urlvalidate guess_type requests_get m w)
        as [[o Ho] | (e' & He' & _ & Hstr')].
      * unfold bind at 1 3. rewrite Ho. unfold bind.
        split; [exists e; by rewrite He|].
        intros Hall. rewrite Hstr; [done|].
        intros m' Hm'. apply Hall. by apply list_elem_of_further.
      * unfold bind at 1 3. rewrite He'. split; [by eexists|].
        intros Hall. rewrite Hstr'; [done|]. apply Hall, list_elem_of_here.
    + unfold bind. split; [exists e; by rewrite He|].
      intros Hall. rewrite Hstr; [done|].
      intros m' Hm'. apply Hall. by apply list_elem_of_further.
Qed.

(** ** The appending operations (lines 201-237, 269-279) *)

Lemma type_for_form_world x dt form_metadata w :
  snd (type_for_form x dt form_metadata w) = w.
Proof. by destruct form_metadata as [[|m l]|]. Qed.

Lemma save_new_cases storage_exists dt x v f ft w :
  let r := new_MetaData dt x v f ft in
  (exists w',
      save storage_exists r w = (Raise IntegrityError, w')
      /\ db w' = db w /\ writes w' = writes w /\ log w' = log w
      /\ is_None v || existsb (conflicts r) (db w) = true)
  \/ (exists r' w',
        save storage_exists r w = (Ok r', w')
        /\ is_None v || existsb (conflicts r) (db w) = false
        /\ db w' = db w ++ [set_data_value (PStr (force_text v)) r']
        /\ writes w' = S (writes w) /\ log w' = log w
        /\ pk r' = Some (next_pk (db w))
        /\ xform r' = x /\ data_type r' = dt /\ data_value r' = v
        /\ data_file r' = f /\ data_file_type r' = ft).
Proof.
  intros r.
  destruct (save_cases storage_exists r w)
    as [(w' & E & ? & ? & ? & ?) |
        (r' & w' & E & ? & ? & ? & ? & ? & ? & ? & ? & ?)].
  - left. by exists w'.
  - right. exists r', w'.
    destruct (save_frame storage_exists r w _ _ E) as (_ & _ & Hok).
    destruct (Hok r' eq_refl) as (_ & Hnew & _).
    destruct (Hnew eq_refl) as [Hpk Hdb].
    by repeat split.
Qed.

Lemma bind_world {A B} (m : M A) (k : A -> M B) w :
  (forall a w0, snd (k a w0) = w0) -> snd (bind m k w) = snd (m w).
Proof.
  intros Hk. unfold bind. destruct (m w) as [[a|e] w']; [apply Hk | done].
Qed.

(** X8: the appending operations never change or remove a row.  After
    [supporting_docs], [media_upload], [media_add_uri] or [external_export],
    whatever the arguments and whether the call returns or raises, the
    table is the old table followed by at most one new row, and that row
    belongs to the given form and has the operation's type. *)
Theorem appends_only urlvalidate guess_type requests_get storage_exists
    (TYPES : list string) x w :
  let appended := fun (kind : string) (w' : world) =>
    exists tail, db w' = db w ++ tail /\ length tail <= 1
                 /\ (forall row, row ∈ tail ->
                       xform row = x /\ data_type row = kind) in
  (forall f form_metadata,
      appended "supporting_doc"
        (snd (supporting_docs storage_exists x f form_metadata w)))
  /\ (forall f download form_metadata,
        appended "media"
          (snd (media_upload urlvalidate guess_type requests_get
                             storage_exists TYPES x f download
                             form_metadata w)))
  /\ (forall uri,
        appended "media" (snd (media_add_uri urlvalidate storage_exists x
                                             uri w)))
  /\ (forall v,
        appended "external_export" (snd (external_export storage_exists x v
                                                         w))).
Proof.
  intros appended.
  assert (appended "supporting_doc" w /\ appended "media" w
          /\ appended "external_export" w) as (Hsame1 & Hsame2 & Hsame3).
  { repeat split; exists []; rewrite app_nil_r;
      (split; [done|]; split; [simpl; lia|]);
      intros row Hrow; by apply elem_of_nil in Hrow. }
  assert (forall kind v f ft,
            appended kind
              (snd (save storage_exists (new_MetaData kind x v f ft) w)))
    as Hsave.
  { intros kind v f ft.
    destruct (save_new_cases storage_exists kind x v f ft w)
      as [(w' & -> & Hdb & _) |
          (r' & w' & -> & _ & Hdb & _ & _ & _ & Hx & Ht & _)]; cbn [snd].
    - exists []. rewrite app_nil_r. split; [done|].
      split; [simpl; lia|]. intros row Hrow. by apply elem_of_nil in Hrow.
    - eexists. split; [exact Hdb|]. split; [simpl; lia|].
      intros row ->%list_elem_of_singleton. done. }
  split; [|split; [|split]].
  - intros f fm. unfold supporting_docs.
    rewrite bind_world by (intros; apply type_for_form_world).
    destruct f as [f|]; [|done]. destruct (file_truthy f); [|done].
    rewrite bind_world by done. apply Hsave.
  - intros f download fm. unfold media_upload.
    rewrite bind_world.
    2:{ intros _ w0. rewrite bind_world
          by (intros; apply media_resources_world).
        apply type_for_form_world. }
    destruct f as [f|]; [|done]. destruct (file_truthy f); [|done].
    destruct (allowed TYPES (upload_content_type guess_type TYPES f));
      [|done].
    rewrite bind_world by done. apply Hsave.
  - intros uri. unfold media_add_uri.
    destruct (is_valid_url urlvalidate uri); [|done].
    rewrite bind_world by done. apply Hsave.
  - intros v. unfold external_export.
    destruct (truthy v); [|done].
    rewrite bind_world by done. apply Hsave.
Qed.

Lemma name_value_truthy f :
  file_truthy f = true ->
  exists n, file_name f = Some n /\ n <> "" /\ name_value f = PStr n.
Proof.
  unfold file_truthy, name_value. destruct (file_name f) as [n|]; [|done].
  intros H. exists n. split; [done|]. split; [|done].
  intros ->. done.
Qed.

Lemma truthy_not_None v : truthy v = true -> is_None v = false.
Proof. by destruct v. Qed.

(** X10: [media_add_uri] on a string.  A value the validator refuses is
    dropped silently: nothing is written and nothing is raised.  An
    accepted URI that no media row of the form holds is stored as one new
    media row under a fresh id, with the URI as value and no file.  An
    accepted URI that a media row of the form already holds makes the call
    raise [IntegrityError], the table unchanged. *)
Theorem media_add_uri_cases urlvalidate storage_exists x (s : string) w :
  (urlvalidate s = false ->
   media_add_uri urlvalidate storage_exists x (PStr s) w = (Ok tt, w))
  /\ (urlvalidate s = true ->
      existsb (conflicts (new_MetaData "media" x (PStr s) unset_file CTNone))
              (db w) = false ->
      exists row w',
        media_add_uri urlvalidate storage_exists x (PStr s) w = (Ok tt, w')
        /\ db w' = db w ++ [row]
        /\ pk row = Some (next_pk (db w))
        /\ xform row = x /\ data_type row = "media"
        /\ data_value row = PStr s
        /\ file_truthy (data_file row) = false
        /\ writes w' = S (writes w))
  /\ (forall held,
        urlvalidate s = true -> keyed (db w) ->
        held ∈ db w -> xform held = x -> data_type held = "media" ->
        data_value held = PStr s ->
        exists w',
          media_add_uri urlvalidate storage_exists x (PStr s) w
          = (Raise IntegrityError, w')
          /\ db w' = db w /\ writes w' = writes w).
Proof.
  unfold media_add_uri, is_valid_url. cbn [force_text].
  split; [by intros ->|]. split.
  - intros -> Hfree.
    destruct (save_new_cases storage_exists "media" x (PStr s) unset_file
                CTNone w)
      as [(w' & _ & _ & _ & _ & Hc) |
          (r' & w' & E & _ & Hdb & Hwr & _ & Hpk & Hx & Ht & Hv & Hf & _)].
    { rewrite Hfree in Hc. done. }
    eexists _, w'. unfold bind. rewrite E. split; [done|].
    split; [exact Hdb|]. cbn [pk xform data_type data_value data_file
                              set_data_value force_text].
    rewrite Hf. by repeat split.
  - intros held -> Hkeyed Hin Hx Ht Hv.
    destruct (save_duplicate_refused storage_exists "media" x (PStr s)
                unset_file CTNone held w Hkeyed Hin Hx Ht)
      as (w' & E & Hdb & Hwr); [by rewrite Hv|].
    exists w'. unfold bind. by rewrite E.
Qed.

(** X11: which uploads [media_upload] keeps.  The content type it checks
    is the declared one when that is in the configured list, else the type
    guessed from the file's name; so an upload is accepted exactly when its
    declared type or the type guessed from its name is in the list.  A
    refused upload is dropped without a write or an exception: the call
    does what a call without a file does.  An accepted upload that no row
    conflicts with is saved with the checked type as its file type before
    the listing runs. *)
Theorem media_upload_content_type urlvalidate guess_type requests_get
    storage_exists (TYPES : list string) x f download form_metadata w :
  file_truthy f = true ->
  let checked := upload_content_type guess_type TYPES f in
  (allowed TYPES checked = true <->
   (exists t, file_content_type f = CTStr t /\ t ∈ TYPES)
   \/ (exists t, fst (guess_type (default "" (file_name f))) = Some t
                 /\ t ∈ TYPES))
  /\ (allowed TYPES (file_content_type f) = true ->
      checked = file_content_type f)
  /\ (allowed TYPES checked = false ->
      media_upload urlvalidate guess_type requests_get storage_exists TYPES
                   x (Some f) download form_metadata w
      = media_upload urlvalidate guess_type requests_get storage_exists TYPES
                     x None download form_metadata w)
  /\ (allowed TYPES checked = true ->
      existsb (conflicts (new_MetaData "media" x (name_value f) f checked))
              (db w) = false ->
      exists r' w',
        save storage_exists (new_MetaData "media" x (name_value f) f checked)
             w = (Ok r', w')
        /\ data_file_type r' = checked
        /\ db w' = db w ++ [set_data_value
                              (PStr (force_text (name_value f))) r']
        /\ media_upload urlvalidate guess_type requests_get storage_exists
                        TYPES x (Some f) download form_metadata w
           = bind (type_for_form x "media" form_metadata)
                  (fun media_list =>
                     media_resources urlvalidate guess_type requests_get
                                     media_list download) w').
Proof.
  intros Hf checked.
  assert (forall t, allowed TYPES t = true <->
                    exists s, t = CTStr s /\ s ∈ TYPES) as Hallowed.
  { intros t. unfold allowed. destruct t as [|s|g].
    - split; [done | by intros (s & ? & _)].
    - rewrite bool_decide_eq_true. split; [by exists s|].
      by intros (s' & [= ->] & ?).
    - split; [done | by intros (s & ? & _)]. }
  split; [|split; [|split]].
  - unfold checked, upload_content_type.
    destruct (allowed TYPES (file_content_type f)) eqn:Hdecl.
    + rewrite Hdecl. split; [|done]. intros _. left. by apply Hallowed.
    + split.
      * intros H. right. apply Hallowed in H as (s & Hs & Hin).
        destruct (fst (guess_type (default "" (file_name f)))) as [t|];
          [|done]. injection Hs as ->. by exists s.
      * intros [(t & Ht & Hin) | (t & -> & Hin)].
        -- assert (allowed TYPES (file_content_type f) = true)
             by (apply Hallowed; by exists t). congruence.
        -- apply Hallowed. by exists t.
  - intros Hdecl. unfold checked, upload_content_type. by rewrite Hdecl.
  - intros Hrej. unfold media_upload. fold checked. by rewrite Hf, Hrej.
  - intros Hacc Hfree.
    destruct (name_value_truthy f Hf) as (n & _ & _ & Hnv).
    destruct (save_new_cases storage_exists "media" x (name_value f) f
                checked w)
      as [(w' & _ & _ & _ & _ & Hc) |
          (r' & w' & E & _ & Hdb & _ & _ & _ & _ & _ & _ & _ & Hft)].
    { rewrite Hfree, Hnv in Hc. done. }
    exists r', w'. split; [done|]. split; [done|]. split; [done|].
    unfold media_upload. fold checked. rewrite Hf, Hacc.
    unfold bind at 1. unfold bind at 1. by rewrite E.
Qed.

(** X12: [external_export] never returns a listing.  Without a value it
    raises [NameError] and changes nothing; with a value that no export
    row of the form holds it inserts a new row under a fresh id and returns
    that record, whatever rows of the type exist already; no call returns a
    list of exports. *)
Theorem external_export_cases storage_exists x v w :
  (truthy v = false ->
   external_export storage_exists x v w = (Raise NameError, w))
  /\ (forall l, fst (external_export storage_exists x v w) <> Ok (inr l))
  /\ (truthy v = true ->
      existsb (conflicts (new_MetaData "external_export" x v unset_file
                                       CTNone)) (db w) = false ->
      exists r' w',
        external_export storage_exists x v w = (Ok (inl r'), w')
        /\ pk r' = Some (next_pk (db w))
        /\ data_value r' = v
        /\ db w' = db w ++ [set_data_value (PStr (force_text v)) r']
        /\ writes w' = S (writes w)).
Proof.
  unfold external_export. split; [by intros ->|]. split.
  - intros l. destruct (truthy v); [|done]. unfold bind.
    by destruct (save storage_exists _ w) as [[r|e] w'].
  - intros Hv Hfree. rewrite Hv.
    destruct (save_new_cases storage_exists "external_export" x v unset_file
                CTNone w)
      as [(w' & _ & _ & _ & _ & Hc) |
          (r' & w' & E & _ & Hdb & Hwr & _ & Hpk & _ & _ & Hval & _)].
    { rewrite Hfree, (truthy_not_None _ Hv) in Hc. done. }
    exists r', w'. unfold bind. rewrite E. by repeat split.
Qed.

(** ** Saving and the hash (lines 141-170) *)

(** X13: [save] refreshes the hash, [hash] does not.  Saving a record with
    an attached, seekable file reads the file once and, when the table
    accepts the row, returns the record with [file_hash] set to [md5:] and
    the digest of the content, whatever hash was cached before; the row
    under the record's id carries the same hash; and [hash] on the returned
    record is then answered from the cache without a read.  [hash] on a
    record with a non-empty cached hash returns that hash without a read
    whatever file is attached, so a replaced file is noticed only by
    [save]. *)
Theorem save_refreshes_hash storage_exists (r : MetaData) w :
  (file_truthy (data_file r) = true ->
   file_seekable (data_file r) = true ->
   forall r' w',
     save storage_exists r w = (Ok r', w') ->
     let h := "md5:" +:+ MD5.hexdigest (file_content (data_file r)) in
     file_hash r' = Some h
     /\ reads w' = S (reads w)
     /\ hash storage_exists r' w' = (Ok (Some h, r'), w')
     /\ (exists row, row ∈ db w' /\ pk row = pk r'
                     /\ file_hash row = Some h))
  /\ (forall h f,
        file_hash r = Some h -> h <> "" ->
        hash storage_exists (set_data_file f r) w
        = (Ok (Some h, set_data_file f r), w)).
Proof.
  split.
  - intros Hf Hseek r' w' Hsave h.
    unfold save, bind in Hsave.
    rewrite (set_hash_attached _ _ _ Hf), Hseek in Hsave. cbn [snd] in Hsave.
    fold h in Hsave.
    set (w1 := {| db := db w; log := log w; writes := writes w;
                  reads := S (reads w) |}) in *.
    destruct (Model_save_cases (set_file_hash (Some h) r) w1)
      as [[E _] | (r1 & w2 & E & _ & Hr1 & _ & _ & Hrd & Hdb)];
      rewrite E in Hsave; [done|]. injection Hsave as <- <-.
    assert (file_hash r1 = Some h) as Hh
      by (rewrite Hr1; by destruct (pk (set_file_hash (Some h) r))).
    split; [done|]. split; [by rewrite Hrd|].
    split; [by apply hash_cached|].
    cbv zeta in Hdb.
    set (row := set_data_value (PStr (force_text (data_value r1))) r1) in *.
    exists row. split; [|done]. rewrite Hdb.
    destruct (existsb (same_pk r1) (db w1)) eqn:Hex.
    + apply existsb_exists in Hex as (y & Hy & Hsame).
      rewrite map_fmap. apply list_elem_of_fmap. exists y.
      split; [by rewrite Hsame | by apply list_elem_of_In].
    + apply elem_of_app. right. by apply list_elem_of_singleton.
  - intros h f Hh Hne. by apply hash_cached.
Qed.

(** X14: what the storage backend reports about the file's existence has
    no influence: for any two answers of [storage.exists], [_set_hash],
    [hash] and [save] give the same result and the same world.  (Line 170 is
    never reached for an attached file.) *)
Theorem storage_exists_irrelevant (storage1 storage2 : string -> bool)
    (r : MetaData) w :
  _set_hash storage1 r w = _set_hash storage2 r w
  /\ hash storage1 r w = hash storage2 r w
  /\ save storage1 r w = save storage2 r w.
Proof.
  assert (forall r0 w0, _set_hash storage1 r0 w0 = _set_hash storage2 r0 w0)
    as Hset.
  { intros r0 w0. destruct (file_truthy (data_file r0)) eqn:Hf.
    - by rewrite !(set_hash_attached _ _ _ Hf).
    - unfold _set_hash. by rewrite Hf. }
  split; [apply Hset|]. split.
  - unfold hash. destruct (file_hash r) as [h|]; [|apply Hset].
    destruct (negb (h =? "")); [done | apply Hset].
  - unfold save, bind. by rewrite Hset.
Qed.

(** ** The single-record operations (lines 185-199, 239-252) *)

(** X17: of the single-record operations only [source] hands its
    arguments to the upsert in order.  [form_license], [data_license] and
    [mapbox_layer_upload] raise [TypeError] on every call, whatever value
    and list they get, and leave the world as it is; [source] raises
    [TypeError] when it gets no list or an empty one, and never does when it
    gets a list with a record in it. *)
Theorem single_record_operations storage_exists keys x v f data w :
  (forall form_metadata,
      form_license storage_exists x v form_metadata w = (Raise TypeError, w)
      /\ data_license storage_exists x v form_metadata w
         = (Raise TypeError, w)
      /\ mapbox_layer_upload storage_exists keys x data form_metadata w
         = (Raise TypeError, w))
  /\ source storage_exists x v f None w = (Raise TypeError, w)
  /\ source storage_exists x v f (Some []) w = (Raise TypeError, w)
  /\ (forall m l,
        fst (source storage_exists x v f (Some (m :: l)) w)
        <> Raise TypeError).
Proof.
  split; [done|]. split; [done|]. split; [done|].
  intros m l. unfold source. rewrite upsert_supplied. unfold bind.
  destruct (assign_file_cases f
              (assign_value v
                 (choose_target x "source"
                    (filter (fun r => data_type r = "source") (m :: l)))) w)
    as [[_ ->] | [_ [[r ->] | ->]]]; cbn [fst snd]; [| |done].
  - destruct (snd (assign_value v _)); [|done].
    destruct (save_cases storage_exists
                (fst (assign_value v
                        (choose_target x "source"
                           (filter (fun r => data_type r = "source")
                                   (m :: l))))) w)
      as [(w' & -> & _) | (r' & w' & -> & _)]; done.
  - destruct (save_cases storage_exists r w)
      as [(w' & -> & _) | (r' & w' & -> & _)]; done.
Qed.

(** ** The properties on sample inputs *)

Lemma upload_to_path_witness :
  upload_to bob_username notes_record "a.txt" = "bob/docs/a.txt"
  /\ upload_to bob_username cat_link "cat.png" = "bob/formid-media/cat.png"
  /\ upload_to bob_username cat_link "/etc/motd" = "/etc/motd".
Proof.
  destruct (upload_to_path bob_username notes_record "a.txt")
    as (_ & H1 & _).
  destruct (upload_to_path bob_username cat_link "cat.png") as (_ & H2 & _).
  destruct (upload_to_path bob_username cat_link "/etc/motd") as (H3 & _).
  split; [exact (H1 eq_refl ltac:(discriminate) eq_refl)|].
  split; [exact (H2 eq_refl ltac:(discriminate) eq_refl)|].
  exact (H3 eq_refl).
Defined.

Lemma type_for_form_prefetched_witness :
  choose_target 1 "form_license"
    (filter (fun m => data_type m = "form_license")
       (order_by_id_desc
          (filter (fun m => xform m = 1%Z)
                  (db (world_of [license_row; late_license])))))
  = (late_license, false).
Proof.
  destruct (type_for_form_prefetched 1 "form_license"
              (world_of [license_row; late_license])) as (_ & _ & H).
  destruct H as (_ & _ & _ & H).
  - exists license_row. split; [apply list_elem_of_here | reflexivity].
  - exact (proj1 (H late_license [license_row] eq_refl)).
Defined.

Lemma upsert_twice_prefetched_witness :
  bind (bind (metadata_for_form 1)
             (fun l => unique_type_for_form nothing_stored 1 "form_license"
                         (PStr "cc-by") ANone (Some l)))
       (fun _ =>
          bind (metadata_for_form 1)
               (fun l => unique_type_for_form nothing_stored 1 "form_license"
                           (PStr "cc0") ANone (Some l)))
       (world_of [source_row])
  = (Ok late_license,
     {| db := [source_row; late_license]; log := []; writes := 2;
        reads := 0 |}).
Proof.
  refine (proj1 (proj2 (upsert_twice_prefetched nothing_stored 1
                          "form_license" "cc-by" "cc0"
                          (world_of [source_row]) _ _ _ _))).
  - discriminate.
  - discriminate.
  - exists source_row. split; [apply list_elem_of_here | reflexivity].
  - intros r Hr _. apply list_elem_of_singleton in Hr. rewrite Hr.
    discriminate.
Defined.

Lemma media_resources_aborts_witness :
  media_resources https_only guess_png fetch_fails [cat_link] true empty_world
  = (Raise RequestException, empty_world).
Proof.
  refine (proj2 (media_resources_aborts https_only guess_png fetch_fails
                   [cat_link] empty_world cat_link
                   "https://example.com/img/cat.png" _ eq_refl eq_refl
                   eq_refl eq_refl) _).
  - apply list_elem_of_here.
  - intros m Hm. apply list_elem_of_singleton in Hm. rewrite Hm.
    by eexists.
Defined.

Lemma media_add_uri_cases_witness :
  media_add_uri https_only nothing_stored 1 (PStr "not a url") empty_world
  = (Ok tt, empty_world).
Proof.
  exact (proj1 (media_add_uri_cases https_only nothing_stored 1 "not a url"
                  empty_world) eq_refl).
Defined.

Lemma media_upload_content_type_witness :
  upload_content_type guess_png png_only octet_png = CTStr "image/png"
  /\ allowed png_only (upload_content_type guess_png png_only octet_png)
     = true
  /\ media_upload https_only guess_png fetch_2048 nothing_stored png_only 1
                  (Some notes_file) false (Some [source_row])
                  (world_of [source_row])
     = media_upload https_only guess_png fetch_2048 nothing_stored png_only 1
                    None false (Some [source_row]) (world_of [source_row]).
Proof.
  split; [reflexivity|]. split.
  - apply (proj1 (media_upload_content_type https_only guess_png fetch_2048
                    nothing_stored png_only 1 octet_png false None
                    empty_world eq_refl)).
    right. exists "image/png". split; [reflexivity|].
    apply list_elem_of_here.
  - destruct (media_upload_content_type https_only guess_png fetch_2048
                nothing_stored png_only 1 notes_file false
                (Some [source_row]) (world_of [source_row]) eq_refl)
      as (_ & _ & H & _).
    apply H. reflexivity.
Defined.

Lemma external_export_cases_witness :
  external_export nothing_stored 1 PNone empty_world
  = (Raise NameError, empty_world).
Proof.
  exact (proj1 (external_export_cases nothing_stored 1 PNone empty_world)
           eq_refl).
Defined.

Lemma save_refreshes_hash_witness :
  file_hash notes_row = Some "md5:900150983cd24fb0d6963f7d28e17f72"
  /\ hash nothing_stored notes_row
          {| db := [notes_row]; log := []; writes := 1; reads := 1 |}
     = (Ok (Some "md5:900150983cd24fb0d6963f7d28e17f72", notes_row),
        {| db := [notes_row]; log := []; writes := 1; reads := 1 |}).
Proof.
  assert (save nothing_stored notes_record empty_world
          = (Ok notes_row,
             {| db := [notes_row]; log := []; writes := 1; reads := 1 |}))
    as E by (by vm_compute).
  destruct (proj1 (save_refreshes_hash nothing_stored notes_record
                     empty_world) eq_refl eq_refl _ _ E)
    as (H1 & _ & H3 & _).
  split; [exact H1 | exact H3].
Defined.

Lemma unique_type_for_form_frame_witness :
  fst (unique_type_for_form nothing_stored 1 "form_license" (PStr "cc-by")
         ANone (Some [late_license]) (world_of [source_row; late_license]))
  = Ok (set_data_value (PStr "cc-by") late_license)
  /\ source_row
     ∈ db (snd (unique_type_for_form nothing_stored 1 "form_license"
                  (PStr "cc-by") ANone (Some [late_license])
                  (world_of [source_row; late_license]))).
Proof.
  split; [reflexivity|].
  destruct (unique_type_for_form_frame nothing_stored 1 "form_license"
              (PStr "cc-by") ANone (Some [late_license])
              (world_of [source_row; late_license])) as (_ & _ & H).
  destruct (H (set_data_value (PStr "cc-by") late_license) eq_refl)
    as [_ Hkeep].
  apply Hkeep; [apply list_elem_of_here | discriminate].
Defined.

Lemma media_resources_listing_witness :
  exists resolved,
    media_resources https_only guess_png fetch_2048 [cat_link; notes_row]
                    true empty_world
    = (Ok [resolved; notes_row], empty_world)
    /\ [notes_row] `sublist_of` [resolved; notes_row].
Proof.
  eexists. split; [reflexivity|].
  destruct (media_resources_listing https_only guess_png fetch_2048
              [cat_link; notes_row] empty_world) as (_ & _ & H).
  exact (proj2 (H true _ eq_refl)).
Defined.
